(** * FXSystem.h: the interface to the effects system

    A shallow embedding of the inline functions and of the base class
    [FFXSystemInterface] declared in FXSystem.h, together with the
    properties its specification states about them.

    Conventions of the embedding:
    - a C++ function that may read or write state is a computation
      [State S A := S -> A * S];
    - [a && b] and [a || b] evaluate [b] only when [a] does not decide the
      result, as in C++;
    - an [int32] used as a condition is true when it is not zero;
    - a pointer [T*] is an [option T], [nullptr] being [None]. *)

From Stdlib Require Import ZArith Bool List Lia.
From stdpp Require Import base gmap strings.
Import ListNotations.

(** ** A small state monad *)

Definition State (S A : Type) : Type := S -> A * S.

Definition ret {S A : Type} (a : A) : State S A := fun s => (a, s).

Definition bind {S A B : Type} (m : State S A) (k : A -> State S B) : State S B :=
  fun s => let (a, s') := m s in k a s'.

Declare Scope state_scope.
Delimit Scope state_scope with state.
Notation "x <- m ;; k" := (bind m (fun x => k))
  (at level 100, m at next level, right associativity) : state_scope.
Open Scope state_scope.

(** Reading a piece of the state: the state is returned as it was. *)
Definition load {S A : Type} (field : S -> A) : State S A := fun s => (field s, s).

Definition value {S A : Type} (m : State S A) (s : S) : A := fst (m s).
Definition after {S A : Type} (m : State S A) (s : S) : S := snd (m s).

(** C++ [a && b]. *)
Definition and_then {S : Type} (a b : State S bool) : State S bool :=
  x <- a ;; if x then b else ret false.

(** C++ [a || b]. *)
Definition or_else {S : Type} (a b : State S bool) : State S bool :=
  x <- a ;; if x then ret true else b.

Infix "&&&" := and_then (at level 40, left associativity) : state_scope.
Infix "|||" := or_else (at level 50, left associativity) : state_scope.

(** A computation that leaves every state as it found it. *)
Definition read_only {S A : Type} (m : State S A) : Prop :=
  forall s, after m s = s.

(** Conversion of an [int32] to [bool] in a condition. *)
Definition int32_to_bool (x : Z) : bool := negb (x =? 0)%Z.

(** An interned name ([FName]). *)
Abbreviation FName := string.

(** ** The capability gate *)

(** What FXSystem.h takes from RHIDefinitions.h and PixelFormat.h: three
    enumerations, of which it names one feature level and one pixel format. *)
Class RHIDefinitions : Type := {
  EShaderPlatform : Type;
  ERHIFeatureLevel : Type;
  ES3_1 : ERHIFeatureLevel;
  EPixelFormat : Type;
  PF_G32R32F : EPixelFormat
}.

(** An entry of the [GPixelFormats] table; [Supported] is the one field
    FXSystem.h reads. *)
Record FPixelFormatInfo : Type := { Supported : bool }.

(** [namespace FXConsoleVariables]: the integer console variables. The two
    [float] variables and the [TAutoConsoleVariable] are read by none of the
    code embedded here and are left out. *)
Record FXConsoleVariables : Type := {
  VisualizeGPUSimulation : Z;
  bAllowGPUSorting : Z;
  bAllowCulling : Z;
  bFreezeGPUSimulation : Z;
  bFreezeParticleSimulation : Z;
  bAllowAsyncTick : Z;
  MaxParticleTilePreAllocation : Z;
  MaxCPUParticlesPerEmitter : Z;
  MaxGPUParticlesSpawnedPerFrame : Z;
  GPUSpawnWarningThreshold : Z;
  bAllowGPUParticles : Z
}.

(** The global variables the two gate functions can see. *)
Record Globals `{RHIDefinitions} : Type := {
  CVars : FXConsoleVariables;
  GSupportsMultipleRenderTargets : bool;
  GSupportsWideMRT : bool;
  GPixelFormats : EPixelFormat -> FPixelFormatInfo;
  GSupportsTexture3D : bool;
  GSupportsResourceView : bool
}.

(** The two helpers of RenderUtils.h that [SupportsGPUParticles] calls.
    Their bodies are not in FXSystem.h: they are arbitrary computations over
    the globals. *)
Class RenderUtils `{RHIDefinitions} : Type := {
  IsFeatureLevelSupported : EShaderPlatform -> ERHIFeatureLevel -> State Globals bool;
  IsPCPlatform : EShaderPlatform -> State Globals bool
}.

(** [inline bool SupportsGPUParticles(EShaderPlatform Platform)] *)
Definition SupportsGPUParticles `{RenderUtils} (Platform : EShaderPlatform)
  : State Globals bool :=
  IsFeatureLevelSupported Platform ES3_1 ||| IsPCPlatform Platform.

(** [inline bool RHISupportsGPUParticles()] *)
Definition RHISupportsGPUParticles `{RHIDefinitions} : State Globals bool :=
  load (fun g => int32_to_bool (bAllowGPUParticles (CVars g)))
    &&& load GSupportsMultipleRenderTargets
    &&& load GSupportsWideMRT
    &&& load (fun g => Supported (GPixelFormats g PF_G32R32F))
    &&& load GSupportsTexture3D
    &&& load GSupportsResourceView.

(** The six conditions of the runtime gate. *)
Definition runtime_conditions `{RHIDefinitions} (g : Globals) : Prop :=
  bAllowGPUParticles (CVars g) <> 0%Z
  /\ GSupportsMultipleRenderTargets g = true
  /\ GSupportsWideMRT g = true
  /\ Supported (GPixelFormats g PF_G32R32F) = true
  /\ GSupportsTexture3D g = true
  /\ GSupportsResourceView g = true.

(** The two helpers of RenderUtils.h change no global variable. *)
Definition helpers_read_only `{RenderUtils} : Prop :=
  (forall p l, read_only (IsFeatureLevelSupported p l))
  /\ (forall p, read_only (IsPCPlatform p)).

(** Calling [m] twice in a row: both answers. *)
Definition twice {S A : Type} (m : State S A) : State S (A * A) :=
  x <- m ;; y <- m ;; ret (x, y).

(** ** The base class [FFXSystemInterface] *)

(** An object of a class derived from [FFXSystemInterface]: the one data
    member of the base class, [bool bIsPendingKill = false], and the members
    the derived class adds. *)
Record FFXSystemInterface (Derived : Type) : Type := {
  bIsPendingKill : bool;
  derived : Derived
}.
Arguments bIsPendingKill {Derived} _.
Arguments derived {Derived} _.

(** A member function is a computation over the object it is called on. *)
Definition Method (Derived A : Type) : Type := State (FFXSystemInterface Derived) A.

(** Construction: the default member initializer of [bIsPendingKill]. *)
Definition construct {Derived : Type} (d : Derived) : FFXSystemInterface Derived :=
  {| bIsPendingKill := false; derived := d |}.

(** [virtual FFXSystemInterface* GetInterface(const FName& InName) { return nullptr; }] *)
Definition GetInterface {Derived : Type} (InName : FName)
  : Method Derived (option (FFXSystemInterface Derived)) :=
  ret None.

(** [virtual void OnDestroy() { bIsPendingKill = true; }] *)
Definition OnDestroy {Derived : Type} : Method Derived unit :=
  fun this => (tt, {| bIsPendingKill := true; derived := derived this |}).

(** [virtual void DestroyGPUSimulation() { }] *)
Definition DestroyGPUSimulation {Derived : Type} : Method Derived unit :=
  ret tt.

(** [bool IsPendingKill() const { return bIsPendingKill; }] *)
Definition IsPendingKill {Derived : Type} : Method Derived bool :=
  load bIsPendingKill.

(** The members declared [= 0] (the last two under [WITH_EDITOR]). *)
Inductive PureVirtual : Type :=
  | Tick | DrawDebug | AddVectorField | RemoveVectorField | UpdateVectorField
  | PreInitViews | PostInitViews | UsesGlobalDistanceField | UsesDepthBuffer
  | RequiresEarlyViewUniformBuffer | PreRender | PostRenderOpaque
  | GetGPUSortManager | Suspend | Resume.

(** The bodies a derived class gives to the pure virtual members.
    [bIsPendingKill] is a private member of the base class, so such a body
    works on the members of the derived class only. [Args] stands for the
    arguments of a call. *)
Class Overrides (Derived : Type) : Type := {
  Args : Type;
  override : PureVirtual -> Args -> Derived -> Derived
}.

(** A call of a member function on an object. *)
Inductive Call `{Overrides Derived} : Type :=
  | CallGetInterface (InName : FName)
  | CallOnDestroy
  | CallDestroyGPUSimulation
  | CallIsPendingKill
  | CallPureVirtual (m : PureVirtual) (a : Args).

(** The object after one call. *)
Definition step `{Overrides Derived} (c : Call) (this : FFXSystemInterface Derived)
  : FFXSystemInterface Derived :=
  match c with
  | CallGetInterface InName => after (GetInterface InName) this
  | CallOnDestroy => after OnDestroy this
  | CallDestroyGPUSimulation => after DestroyGPUSimulation this
  | CallIsPendingKill => after IsPendingKill this
  | CallPureVirtual m a =>
      {| bIsPendingKill := bIsPendingKill this; derived := override m a (derived this) |}
  end.

(** The object after a sequence of calls. *)
Fixpoint run `{Overrides Derived} (cs : list Call) (this : FFXSystemInterface Derived)
  : FFXSystemInterface Derived :=
  match cs with
  | [] => this
  | c :: cs' => run cs' (step c this)
  end.

(** What [IsPendingKill()] answers before the first call and after each call
    of a sequence. *)
Fixpoint history `{Overrides Derived} (cs : list Call) (this : FFXSystemInterface Derived)
  : list bool :=
  value IsPendingKill this ::
  match cs with
  | [] => []
  | c :: cs' => history cs' (step c this)
  end.

(** The number of places where a sequence of answers goes from [false] to
    [true], and from [true] to [false]. *)
Fixpoint rises (l : list bool) : nat :=
  match l with
  | false :: ((true :: _) as l') => S (rises l')
  | _ :: l' => rises l'
  | [] => 0
  end.

Fixpoint falls (l : list bool) : nat :=
  match l with
  | true :: ((false :: _) as l') => S (falls l')
  | _ :: l' => falls l'
  | [] => 0
  end.

(** ** Creation of an effects system *)

(** The implementation an object returned by [Create] belongs to: one built
    by a registered factory, the default one, or the one that does nothing. *)
Inductive Implementation (Custom : Type) : Type :=
  | CustomSystem (c : Custom)
  | BuiltInSystem
  | DisabledSystem.
Arguments CustomSystem {Custom} c.
Arguments BuiltInSystem {Custom}.
Arguments DisabledSystem {Custom}.

(** The delegate type [FCreateCustomFXSystemDelegate]: three parameters, an
    [ERHIFeatureLevel::Type], an [EShaderPlatform] and a pointer to an
    [FGPUSortManager]; the result is a pointer to an [FFXSystemInterface]. *)
Definition FCreateCustomFXSystemDelegate `{RHIDefinitions} (Custom FGPUSortManager : Type)
  : Type :=
  ERHIFeatureLevel -> EShaderPlatform -> option FGPUSortManager ->
  option (FFXSystemInterface Custom).

(** The state [Create] runs in: the globals of the gate, the shared sort
    manager, and the static member
    [TMap<FName, FCreateCustomFXSystemDelegate> CreateCustomFXDelegates]. *)
Record World `{RHIDefinitions} (Custom FGPUSortManager : Type) : Type := {
  globals : Globals;
  GPUSortManager : option FGPUSortManager;
  CreateCustomFXDelegates : gmap string (FCreateCustomFXSystemDelegate Custom FGPUSortManager)
}.
Arguments globals {_} {Custom FGPUSortManager} _.
Arguments GPUSortManager {_} {Custom FGPUSortManager} _.
Arguments CreateCustomFXDelegates {_} {Custom FGPUSortManager} _.

(** A computation over the globals, run inside a world. *)
Definition on_globals `{RHIDefinitions} {Custom FGPUSortManager A : Type}
  (m : State Globals A) : State (World Custom FGPUSortManager) A :=
  fun w =>
    let (a, g) := m (globals w) in
    (a, {| globals := g;
           GPUSortManager := GPUSortManager w;
           CreateCustomFXDelegates := CreateCustomFXDelegates w |}).

(** An object made by a custom factory, seen as an object [Create] returns. *)
Definition upcast {Custom : Type} (i : FFXSystemInterface Custom)
  : FFXSystemInterface (Implementation Custom) :=
  {| bIsPendingKill := bIsPendingKill i; derived := CustomSystem (derived i) |}.

(** The object of the first registered factory that makes one for the
    requested feature level and platform. *)
Fixpoint first_custom `{RHIDefinitions} {Custom FGPUSortManager : Type}
  (InFeatureLevel : ERHIFeatureLevel) (InShaderPlatform : EShaderPlatform)
  (mgr : option FGPUSortManager)
  (l : list (string * FCreateCustomFXSystemDelegate Custom FGPUSortManager))
  : option (FFXSystemInterface Custom) :=
  match l with
  | [] => None
  | (_, factory) :: l' =>
      match factory InFeatureLevel InShaderPlatform mgr with
      | Some i => Some i
      | None => first_custom InFeatureLevel InShaderPlatform mgr l'
      end
  end.

(** Modelled from the spec: the body of [FFXSystemInterface::Create], of which
    FXSystem.h holds the declaration only. The specification says: if a custom
    factory is registered for the request, use it; otherwise construct the
    default built-in implementation, gated by the capability gate; when the
    platform cannot support any implementation, return a disabled instance,
    never null. A factory is taken to serve a request when it returns an
    object for it. *)
Definition Create `{RenderUtils} {Custom FGPUSortManager : Type}
  (InFeatureLevel : ERHIFeatureLevel) (InShaderPlatform : EShaderPlatform)
  : State (World Custom FGPUSortManager)
          (option (FFXSystemInterface (Implementation Custom))) :=
  custom <- load (fun w => first_custom InFeatureLevel InShaderPlatform (GPUSortManager w)
                             (map_to_list (CreateCustomFXDelegates w))) ;;
  match custom with
  | Some i => ret (Some (upcast i))
  | None =>
      supported <- on_globals (SupportsGPUParticles InShaderPlatform &&& RHISupportsGPUParticles) ;;
      ret (Some (construct (if supported : bool then BuiltInSystem else DisabledSystem)))
  end.

(** ** Concrete inputs *)

(** A platform model with three shader platforms, two feature levels and two
    pixel formats, used to run the definitions on concrete inputs. *)
Inductive sample_platform : Type := sample_desktop | sample_console | sample_handheld.
Inductive sample_level : Type := sample_low | sample_high.
Inductive sample_format : Type := sample_rgba8 | sample_g32r32f.

Definition sample_rhi : RHIDefinitions :=
  {| EShaderPlatform := sample_platform;
     ERHIFeatureLevel := sample_level;
     ES3_1 := sample_high;
     EPixelFormat := sample_format;
     PF_G32R32F := sample_g32r32f |}.

Definition sample_level_supported (p : sample_platform) (l : sample_level) : bool :=
  match p, l with
  | sample_console, _ => true
  | _, sample_low => true
  | _, sample_high => false
  end.

Definition sample_is_pc (p : sample_platform) : bool :=
  match p with
  | sample_desktop => true
  | _ => false
  end.

Definition sample_utils : @RenderUtils sample_rhi :=
  @Build_RenderUtils sample_rhi
    (fun p l => ret (sample_level_supported p l))
    (fun p => ret (sample_is_pc p)).

Definition sample_cvars (allow : Z) : FXConsoleVariables :=
  {| VisualizeGPUSimulation := 0; bAllowGPUSorting := 1; bAllowCulling := 1;
     bFreezeGPUSimulation := 0; bFreezeParticleSimulation := 0; bAllowAsyncTick := 0;
     MaxParticleTilePreAllocation := 100; MaxCPUParticlesPerEmitter := 1000;
     MaxGPUParticlesSpawnedPerFrame := 1048576; GPUSpawnWarningThreshold := 20000;
     bAllowGPUParticles := allow |}.

(** Globals with every device capability present but, when [tex3d] is
    [false], 3-D textures. *)
Definition sample_globals (allow : Z) (tex3d : bool) : @Globals sample_rhi :=
  @Build_Globals sample_rhi (sample_cvars allow) true true
    (fun _ => {| Supported := true |}) tex3d true.

(** A derived class with one counter, which every pure virtual member but
    [Tick] leaves alone. *)
Definition sample_overrides : Overrides nat :=
  {| Args := nat;
     override := fun m a d => match m with Tick => (d + a)%nat | _ => d end |}.

(** A factory that serves the desktop platform only. *)
Definition sample_factory : @FCreateCustomFXSystemDelegate sample_rhi nat unit :=
  fun (_ : sample_level) (p : sample_platform) (_ : option unit) =>
    if sample_is_pc p then Some (construct 7%nat) else None.

Definition sample_world (allow : Z) (reg : gmap string (@FCreateCustomFXSystemDelegate sample_rhi nat unit))
  : @World sample_rhi nat unit :=
  @Build_World sample_rhi nat unit (sample_globals allow true) None reg.

(** A registry with the sample factory under one name. *)
Definition sample_registry : gmap string (@FCreateCustomFXSystemDelegate sample_rhi nat unit) :=
  <["Custom" := sample_factory]> ∅.

(** A sequence of calls in which [OnDestroy()] comes third and fifth. *)
Definition sample_calls : list (@Call nat sample_overrides) :=
  [ @CallPureVirtual nat sample_overrides Tick 3%nat;
    CallIsPendingKill;
    CallOnDestroy;
    CallGetInterface "Custom";
    CallOnDestroy;
    CallDestroyGPUSimulation;
    @CallPureVirtual nat sample_overrides Tick 4%nat ].

(** ** Sequences of calls on an object *)

(** The call is [OnDestroy()]. *)
Definition calls_OnDestroy `{Overrides Derived} (c : Call) : bool :=
  match c with
  | CallOnDestroy => true
  | _ => false
  end.

(** The call is one that can change the object: [OnDestroy()] or a pure
    virtual member. The other three members have bodies that assign
    nothing. *)
Definition may_change_object `{Overrides Derived} (c : Call) : bool :=
  match c with
  | CallOnDestroy | CallPureVirtual _ _ => true
  | CallGetInterface _ | CallDestroyGPUSimulation | CallIsPendingKill => false
  end.

(** Two states of the globals in which the six operands of
    [RHISupportsGPUParticles] have the same truth values. *)
Definition same_runtime_operands `{RHIDefinitions} (g g' : Globals) : Prop :=
  int32_to_bool (bAllowGPUParticles (CVars g)) = int32_to_bool (bAllowGPUParticles (CVars g'))
  /\ GSupportsMultipleRenderTargets g = GSupportsMultipleRenderTargets g'
  /\ GSupportsWideMRT g = GSupportsWideMRT g'
  /\ Supported (GPixelFormats g PF_G32R32F) = Supported (GPixelFormats g' PF_G32R32F)
  /\ GSupportsTexture3D g = GSupportsTexture3D g'
  /\ GSupportsResourceView g = GSupportsResourceView g'.

(** Globals that differ from [sample_globals (-5) true] in every console
    variable and in the pixel formats other than [PF_G32R32F]. *)
Definition sample_globals_other : @Globals sample_rhi :=
  @Build_Globals sample_rhi
    {| VisualizeGPUSimulation := 1; bAllowGPUSorting := 0; bAllowCulling := 0;
       bFreezeGPUSimulation := 1; bFreezeParticleSimulation := 1; bAllowAsyncTick := 1;
       MaxParticleTilePreAllocation := 0; MaxCPUParticlesPerEmitter := 0;
       MaxGPUParticlesSpawnedPerFrame := 0; GPUSpawnWarningThreshold := 0;
       bAllowGPUParticles := 1 |}
    true true
    (fun f => {| Supported := match f with sample_g32r32f => true | _ => false end |})
    true true.

(** * EngineAnalytics.cpp: the engine analytics singleton

    The static members of [FEngineAnalytics] and the file-level statics are
    the state; the objects they point to (provider, session manager, summary
    writer and sender) belong to other modules, and a call of one of their
    members is recorded as an event; such a call is taken not to call back
    into this file. The checks are compiled in: a failed [check] or [checkf]
    ends the run; a failed [ensure] is recorded and the run goes on. The
    cycle counter of [Tick] is left out. *)

Module FEngineAnalytics.

(** What the file takes from headers that are not part of it: types, the
    enumerators it names, and the two build macros it tests. *)
Class Externals : Type := {
  IAnalyticsProviderET : Type;
  OtherConfig : Type;
  EAnalyticsBuildType : Type;
  Development : EAnalyticsBuildType;
  Release : EAnalyticsBuildType;
  EAnalyticsBuildType_eq_dec :: EqDecision EAnalyticsBuildType;
  EEngineSessionManagerMode : Type;
  Editor : EEngineSessionManagerMode;
  AttributeValue : Type;
  float : Type;
  WITH_EDITOR : bool;
  UE_BUILD_DEBUG : bool
}.

(** [FAnalyticsET::Config]: the four strings the file reads and writes, and
    the members it does not touch. *)
Record Config `{Externals} : Type := {
  APIKeyET : string;
  APIServerET : string;
  AppEnvironment : string;
  AppVersionET : string;
  OtherMembers : OtherConfig
}.

(** [FAnalyticsEventAttribute], built from a name and a value. *)
Record FAnalyticsEventAttribute `{Externals} : Type := {
  AttrName : string;
  AttrValue : AttributeValue
}.

(** The two members of [UEngine] the file calls. The second one fills the
    array it is given, which is empty at the call. *)
Record UEngine `{Externals} : Type := {
  AreEditorAnalyticsEnabled : bool;
  CreateStartupAnalyticsAttributes : list FAnalyticsEventAttribute
}.

(** [UGeneralProjectSettings]: the four members the file reads. *)
Record UGeneralProjectSettings `{Externals} : Type := {
  ProjectName : AttributeValue;
  ProjectID : AttributeValue;
  Description : AttributeValue;
  ProjectVersion : AttributeValue
}.

(** Objects the file creates, by the arguments of their constructors. *)
Record FEngineSessionManager `{Externals} : Type := {
  Mode : EEngineSessionManagerMode
}.

Record FEditorSessionSummaryWriter : Type := {
  OutOfProcessMonitorProcessId : Z
}.

Record FEditorSessionSummarySender `{Externals} : Type := {
  AnalyticsProvider : IAnalyticsProviderET;
  SenderName : string;
  CurrentSessionProcessId : Z
}.

(** What the functions of the file read from the rest of the engine during
    one call. *)
Record Env `{Externals} : Type := {
  GetAnalyticsBuildType : EAnalyticsBuildType;
  IsInternalBuild : bool;
  IsPerforceBuild : bool;
  (** [GConfig->GetString("Analytics", "UE4TypeOverride", ..., GEngineIni)]:
      the string when the call returns true. *)
  UE4TypeOverride : option string;
  EngineVersion_Current_ToString : string;
  CreateAnalyticsProvider : Config -> option IAnalyticsProviderET;
  GEngine : option UEngine;
  GIsEditor : bool;
  IsRunningCommandlet : bool;
  GetLoginId : string;
  GetEpicAccountId : string;
  GetOperatingSystemId : string;
  ProjectSettings : UGeneralProjectSettings;
  GRHIVendorId : AttributeValue;
  GRHIDeviceId : AttributeValue;
  GRHIDeviceRevision : AttributeValue;
  GRHIAdapterInternalDriverVersion : AttributeValue;
  GRHIAdapterUserDriverVersion : AttributeValue;
  TotalPhysical : AttributeValue;
  NumberOfCores : AttributeValue;
  NumberOfCoresIncludingHyperthreads : AttributeValue;
  GetPrimaryGPUBrand : AttributeValue;
  GRHIAdapterName : AttributeValue;
  GetCPUVendor : AttributeValue;
  GetCPUBrand : AttributeValue;
  OSMajor : AttributeValue;
  OSMinor : AttributeValue;
  GetOSVersion : AttributeValue;
  Is64bitOperatingSystem : AttributeValue;
  GetOutOfProcessCrashReporterProcessId : Z;
  IsOutOfProcessCrashReporter : bool;
  GetCurrentProcessId : Z;
  (** [Analytics.IsUnique()], asked in [Shutdown]. *)
  Analytics_IsUnique : bool
}.

(** A call of a member of an object of another module. *)
Inductive Event `{Externals} : Type :=
  | Provider_SetUserID (p : IAnalyticsProviderET) (InUserID : string)
  | Provider_StartSession (p : IAnalyticsProviderET)
      (Attributes : list FAnalyticsEventAttribute)
  | Provider_RecordEvent (p : IAnalyticsProviderET) (EventName : string)
      (Attributes : list FAnalyticsEventAttribute)
  | StudioAnalytics_ReportEvent (EventName : string)
      (Attributes : list FAnalyticsEventAttribute)
  | SessionManager_Initialize
  | SessionManager_Shutdown
  | SessionManager_Tick (DeltaTime : float)
  | SummaryWriter_Initialize
  | SummaryWriter_Shutdown
  | SummaryWriter_Tick (DeltaTime : float)
  | SummaryWriter_LowDriveSpaceDetected
  | SummarySender_Shutdown
  | SummarySender_Tick (DeltaTime : float)
  | EnsureFailed.

(** The statics of the file: the three static members of [FEngineAnalytics],
    the two file-level statics of editor builds, the function-local static of
    [GetEngineAnalyticsConfigFunc], and the events so far, oldest first. *)
Record Statics `{Externals} : Type := {
  bIsInitialized : bool;
  Analytics : option IAnalyticsProviderET;
  SessionManager : option FEngineSessionManager;
  SessionSummaryWriter : option FEditorSessionSummaryWriter;
  SessionSummarySender : option FEditorSessionSummarySender;
  EngineAnalyticsConfigFunc : unit -> Config;
  Events : list Event
}.

(** [FEngineAnalytics::IsAvailable()] is defined in EngineAnalytics.h, which
    is not part of the file: it is some function of the statics. *)
Class Header `{Externals} : Type := {
  IsAvailable : Statics -> bool
}.

(** How a run can end without returning. *)
Inductive Failure : Type :=
  | CheckFailed (message : string)
  | NullDereference.

Inductive Outcome `{Externals} (A : Type) : Type :=
  | Returned (a : A) (s : Statics)
  | Aborted (f : Failure).
Arguments Returned {_ A} a s.
Arguments Aborted {_ A} f.

Definition Run `{Externals} (A : Type) : Type := Statics -> Outcome A.

Definition unit_run `{Externals} {A : Type} (a : A) : Run A := fun s => Returned a s.

Definition bind_run `{Externals} {A B : Type} (m : Run A) (k : A -> Run B) : Run B :=
  fun s =>
    match m s with
    | Returned a s' => k a s'
    | Aborted f => Aborted f
    end.

Declare Scope run_scope.
Delimit Scope run_scope with run.
Notation "x <- m ;; k" := (bind_run m (fun x => k))
  (at level 100, m at next level, right associativity) : run_scope.
Notation "m ;;; k" := (bind_run m (fun _ => k))
  (at level 100, right associativity) : run_scope.
Local Open Scope run_scope.

Definition abort `{Externals} {A : Type} (f : Failure) : Run A := fun _ => Aborted f.

Definition get `{Externals} {A : Type} (field : Statics -> A) : Run A :=
  fun s => Returned (field s) s.

Definition modify `{Externals} (f : Statics -> Statics) : Run unit :=
  fun s => Returned tt (f s).

(** [check(cond)] and [checkf(cond, message)]. *)
Definition checkf `{Externals} (cond : bool) (message : string) : Run unit :=
  if cond then unit_run tt else abort (CheckFailed message).

Definition when `{Externals} (cond : bool) (m : Run unit) : Run unit :=
  if cond then m else unit_run tt.

Definition IsValid {A : Type} (p : option A) : bool :=
  match p with
  | Some _ => true
  | None => false
  end.

(** Assignments to the statics. *)
Definition set_bIsInitialized `{Externals} (b : bool) (s : Statics) : Statics :=
  {| bIsInitialized := b; Analytics := Analytics s; SessionManager := SessionManager s;
     SessionSummaryWriter := SessionSummaryWriter s;
     SessionSummarySender := SessionSummarySender s;
     EngineAnalyticsConfigFunc := EngineAnalyticsConfigFunc s; Events := Events s |}.

Definition set_Analytics `{Externals} (p : option IAnalyticsProviderET) (s : Statics)
  : Statics :=
  {| bIsInitialized := bIsInitialized s; Analytics := p; SessionManager := SessionManager s;
     SessionSummaryWriter := SessionSummaryWriter s;
     SessionSummarySender := SessionSummarySender s;
     EngineAnalyticsConfigFunc := EngineAnalyticsConfigFunc s; Events := Events s |}.

Definition set_SessionManager `{Externals} (p : option FEngineSessionManager) (s : Statics)
  : Statics :=
  {| bIsInitialized := bIsInitialized s; Analytics := Analytics s; SessionManager := p;
     SessionSummaryWriter := SessionSummaryWriter s;
     SessionSummarySender := SessionSummarySender s;
     EngineAnalyticsConfigFunc := EngineAnalyticsConfigFunc s; Events := Events s |}.

Definition set_SessionSummaryWriter `{Externals} (p : option FEditorSessionSummaryWriter)
  (s : Statics) : Statics :=
  {| bIsInitialized := bIsInitialized s; Analytics := Analytics s;
     SessionManager := SessionManager s; SessionSummaryWriter := p;
     SessionSummarySender := SessionSummarySender s;
     EngineAnalyticsConfigFunc := EngineAnalyticsConfigFunc s; Events := Events s |}.

Definition set_SessionSummarySender `{Externals} (p : option FEditorSessionSummarySender)
  (s : Statics) : Statics :=
  {| bIsInitialized := bIsInitialized s; Analytics := Analytics s;
     SessionManager := SessionManager s; SessionSummaryWriter := SessionSummaryWriter s;
     SessionSummarySender := p;
     EngineAnalyticsConfigFunc := EngineAnalyticsConfigFunc s; Events := Events s |}.

Definition set_EngineAnalyticsConfigFunc `{Externals} (f : unit -> Config) (s : Statics)
  : Statics :=
  {| bIsInitialized := bIsInitialized s; Analytics := Analytics s;
     SessionManager := SessionManager s; SessionSummaryWriter := SessionSummaryWriter s;
     SessionSummarySender := SessionSummarySender s;
     EngineAnalyticsConfigFunc := f; Events := Events s |}.

Definition record_event `{Externals} (e : Event) (s : Statics) : Statics :=
  {| bIsInitialized := bIsInitialized s; Analytics := Analytics s;
     SessionManager := SessionManager s; SessionSummaryWriter := SessionSummaryWriter s;
     SessionSummarySender := SessionSummarySender s;
     EngineAnalyticsConfigFunc := EngineAnalyticsConfigFunc s;
     Events := Events s ++ [e] |}.

Definition emit `{Externals} (e : Event) : Run unit := modify (record_event e).

(** [ensure(cond)]: a report when the condition fails, and the run goes on. *)
Definition ensure `{Externals} (cond : bool) : Run unit :=
  when (negb cond) (emit EnsureFailed).

(** [FAnalyticsET::Config()], the default-constructed configuration, comes
    with the header of the analytics module. *)
Class AnalyticsET `{Externals} : Type := {
  DefaultConfig : Config
}.

(** [FString::IsEmpty()] *)
Definition IsEmpty (s : string) : bool :=
  match s with
  | EmptyString => true
  | String _ _ => false
  end.

(** [FAnalyticsET::Config DefaultEngineAnalyticsConfigFunc()] *)
Definition DefaultEngineAnalyticsConfigFunc `{AnalyticsET} : unit -> Config :=
  fun _ => DefaultConfig.

(** [TFunction<FAnalyticsET::Config()>& GetEngineAnalyticsConfigFunc()]: the
    function-local static, which starts as [&DefaultEngineAnalyticsConfigFunc]
    (see [startup]); the caller may assign through the reference. *)
Definition GetEngineAnalyticsConfigFunc `{Externals} : Run (unit -> Config) :=
  get EngineAnalyticsConfigFunc.

(** The statics when the program starts: [bool] is zero-initialized, the
    shared pointers are null. *)
Definition startup `{AnalyticsET} : Statics :=
  {| bIsInitialized := false; Analytics := None; SessionManager := None;
     SessionSummaryWriter := None; SessionSummarySender := None;
     EngineAnalyticsConfigFunc := DefaultEngineAnalyticsConfigFunc; Events := [] |}.

Definition set_APIKeyET `{Externals} (v : string) (c : Config) : Config :=
  {| APIKeyET := v; APIServerET := APIServerET c; AppEnvironment := AppEnvironment c;
     AppVersionET := AppVersionET c; OtherMembers := OtherMembers c |}.

Definition set_APIServerET `{Externals} (v : string) (c : Config) : Config :=
  {| APIKeyET := APIKeyET c; APIServerET := v; AppEnvironment := AppEnvironment c;
     AppVersionET := AppVersionET c; OtherMembers := OtherMembers c |}.

Definition set_AppEnvironment `{Externals} (v : string) (c : Config) : Config :=
  {| APIKeyET := APIKeyET c; APIServerET := APIServerET c; AppEnvironment := v;
     AppVersionET := AppVersionET c; OtherMembers := OtherMembers c |}.

Definition set_AppVersionET `{Externals} (v : string) (c : Config) : Config :=
  {| APIKeyET := APIKeyET c; APIServerET := APIServerET c;
     AppEnvironment := AppEnvironment c; AppVersionET := v;
     OtherMembers := OtherMembers c |}.

(** The account the key names: the body of the first [if] of
    [CreateEpicAnalyticsProvider]. *)
Definition DefaultAPIKeyET `{Externals} (e : Env) : string :=
  let AnalyticsBuildType := GetAnalyticsBuildType e in
  let bUseReleaseAccount :=
    (bool_decide (AnalyticsBuildType = Development)
     || bool_decide (AnalyticsBuildType = Release))
    && negb (IsInternalBuild e) in
  let BuildTypeStr := if bUseReleaseAccount then "Release" else "Dev" in
  let UE4TypeStr :=
    match UE4TypeOverride e with
    | Some override => override
    | None => if IsPerforceBuild e then "Perforce" else "UnrealEngine"
    end in
  "UEEditor." +:+ UE4TypeStr +:+ "." +:+ BuildTypeStr.

(** The configuration [CreateEpicAnalyticsProvider] hands to the analytics
    module: the four [if]s that set the fields the configured function left
    empty. *)
Definition EpicAnalyticsConfig `{Externals} (e : Env) (Config0 : Config) : Config :=
  let Config1 :=
    if IsEmpty (APIKeyET Config0)
    then set_APIKeyET (DefaultAPIKeyET e) Config0 else Config0 in
  let Config2 :=
    if IsEmpty (APIServerET Config1)
    then set_APIServerET "https://datarouter.ol.epicgames.com/" Config1 else Config1 in
  let Config3 :=
    if IsEmpty (AppEnvironment Config2)
    then set_AppEnvironment "datacollector-source" Config2 else Config2 in
  if IsEmpty (AppVersionET Config3)
  then set_AppVersionET (EngineVersion_Current_ToString e) Config3 else Config3.

(** [static TSharedPtr<IAnalyticsProviderET> CreateEpicAnalyticsProvider()] *)
Definition CreateEpicAnalyticsProvider `{Externals} (e : Env)
  : Run (option IAnalyticsProviderET) :=
  ConfigFunc <- GetEngineAnalyticsConfigFunc ;;
  unit_run (CreateAnalyticsProvider e (EpicAnalyticsConfig e (ConfigFunc tt))).

(** [IAnalyticsProviderET& FEngineAnalytics::GetProvider()] *)
Definition GetProvider `{Header} : Run IAnalyticsProviderET :=
  ok <- get (fun s => bIsInitialized s && IsAvailable s) ;;
  checkf ok "FEngineAnalytics::GetProvider called outside of Initialize/Shutdown." ;;;
  p <- get Analytics ;;
  match p with
  | Some provider => unit_run provider
  | None => abort NullDereference
  end.

Definition Attribute `{Externals} (name : string) (v : AttributeValue)
  : FAnalyticsEventAttribute :=
  {| AttrName := name; AttrValue := v |}.

(** The array [StartSessionAttributes] of [Initialize] when it is handed to
    [StartSession]. *)
Definition StartSessionAttributes `{Externals} (e : Env) (Engine : UEngine)
  : list FAnalyticsEventAttribute :=
  CreateStartupAnalyticsAttributes Engine ++
  [ Attribute "ProjectName" (ProjectName (ProjectSettings e));
    Attribute "ProjectID" (ProjectID (ProjectSettings e));
    Attribute "ProjectDescription" (Description (ProjectSettings e));
    Attribute "ProjectVersion" (ProjectVersion (ProjectSettings e));
    Attribute "GPUVendorID" (GRHIVendorId e);
    Attribute "GPUDeviceID" (GRHIDeviceId e);
    Attribute "GRHIDeviceRevision" (GRHIDeviceRevision e);
    Attribute "GRHIAdapterInternalDriverVersion" (GRHIAdapterInternalDriverVersion e);
    Attribute "GRHIAdapterUserDriverVersion" (GRHIAdapterUserDriverVersion e);
    Attribute "TotalPhysicalRAM" (TotalPhysical e);
    Attribute "CPUPhysicalCores" (NumberOfCores e);
    Attribute "CPULogicalCores" (NumberOfCoresIncludingHyperthreads e);
    Attribute "DesktopGPUAdapter" (GetPrimaryGPUBrand e);
    Attribute "RenderingGPUAdapter" (GRHIAdapterName e);
    Attribute "CPUVendor" (GetCPUVendor e);
    Attribute "CPUBrand" (GetCPUBrand e);
    Attribute "OSMajor" (OSMajor e);
    Attribute "OSMinor" (OSMinor e);
    Attribute "OSVersion" (GetOSVersion e);
    Attribute "Is64BitOS" (Is64bitOperatingSystem e) ].

(** [bShouldInitAnalytics] of [Initialize], with the two [#if]s. *)
Definition bShouldInitAnalytics `{Externals} (e : Env) (Engine : UEngine) : bool :=
  let bIsEditorRun :=
    if WITH_EDITOR then GIsEditor e && negb (IsRunningCommandlet e) else false in
  if UE_BUILD_DEBUG then false else bIsEditorRun && AreEditorAnalyticsEnabled Engine.

(** [void FEngineAnalytics::Initialize()] *)
Definition Initialize `{Header} (e : Env) : Run unit :=
  initialized <- get bIsInitialized ;;
  checkf (negb initialized) "FEngineAnalytics::Initialize called more than once." ;;;
  checkf (IsValid (GEngine e)) "GEngine" ;;;
  match GEngine e with
  | None => abort NullDereference
  | Some Engine =>
      when (bShouldInitAnalytics e Engine)
        (provider <- CreateEpicAnalyticsProvider e ;;
         modify (set_Analytics provider) ;;;
         match provider with
         | Some p =>
             emit (Provider_SetUserID p
                     (GetLoginId e +:+ "|" +:+ GetEpicAccountId e +:+ "|"
                        +:+ GetOperatingSystemId e)) ;;;
             emit (Provider_StartSession p (StartSessionAttributes e Engine)) ;;;
             modify (set_bIsInitialized true)
         | None => unit_run tt
         end ;;;
         manager <- get SessionManager ;;
         when (negb (IsValid manager))
           (modify (set_SessionManager (Some {| Mode := Editor |})) ;;;
            emit SessionManager_Initialize) ;;;
         when WITH_EDITOR
           (writer <- get SessionSummaryWriter ;;
            when (negb (IsValid writer))
              (modify (set_SessionSummaryWriter
                         (Some {| OutOfProcessMonitorProcessId :=
                                    GetOutOfProcessCrashReporterProcessId e |})) ;;;
               emit SummaryWriter_Initialize) ;;;
            sender <- get SessionSummarySender ;;
            when (negb (IsValid sender))
              (when (negb (IsOutOfProcessCrashReporter e))
                 (p <- GetProvider ;;
                  modify (set_SessionSummarySender
                            (Some {| AnalyticsProvider := p;
                                     SenderName := "Editor";
                                     CurrentSessionProcessId := GetCurrentProcessId e |}))))))
  end.

(** [void FEngineAnalytics::Shutdown(bool bIsEngineShutdown)] *)
Definition Shutdown `{Externals} (e : Env) (bIsEngineShutdown : bool) : Run unit :=
  manager <- get SessionManager ;;
  when (IsValid manager && bIsEngineShutdown)
    (emit SessionManager_Shutdown ;;; modify (set_SessionManager None)) ;;;
  when WITH_EDITOR
    (writer <- get SessionSummaryWriter ;;
     when (IsValid writer)
       (emit SummaryWriter_Shutdown ;;; modify (set_SessionSummaryWriter None)) ;;;
     sender <- get SessionSummarySender ;;
     when (IsValid sender)
       (emit SummarySender_Shutdown ;;; modify (set_SessionSummarySender None))) ;;;
  modify (set_bIsInitialized false) ;;;
  provider <- get Analytics ;;
  ensure (negb (IsValid provider) || Analytics_IsUnique e) ;;;
  modify (set_Analytics None).

(** [void FEngineAnalytics::Tick(float DeltaTime)] *)
Definition Tick `{Externals} (DeltaTime : float) : Run unit :=
  manager <- get SessionManager ;;
  when (IsValid manager) (emit (SessionManager_Tick DeltaTime)) ;;;
  when WITH_EDITOR
    (writer <- get SessionSummaryWriter ;;
     when (IsValid writer) (emit (SummaryWriter_Tick DeltaTime)) ;;;
     sender <- get SessionSummarySender ;;
     when (IsValid sender) (emit (SummarySender_Tick DeltaTime))).

(** [void FEngineAnalytics::ReportEvent(const FString& EventName,
    const TArray<FAnalyticsEventAttribute>& Attributes)] *)
Definition ReportEvent `{Header} (EventName : string)
  (Attributes : list FAnalyticsEventAttribute) : Run unit :=
  available <- get IsAvailable ;;
  when available
    (p <- GetProvider ;; emit (Provider_RecordEvent p EventName Attributes)) ;;;
  emit (StudioAnalytics_ReportEvent EventName Attributes).

(** [void FEngineAnalytics::LowDriveSpaceDetected()] *)
Definition LowDriveSpaceDetected `{Externals} : Run unit :=
  when WITH_EDITOR
    (writer <- get SessionSummaryWriter ;;
     when (IsValid writer) (emit SummaryWriter_LowDriveSpaceDetected)).

(** A call of the interface of the file from the rest of the engine; the
    last one is an assignment through the reference that
    [GetEngineAnalyticsConfigFunc] returns. *)
Inductive Call `{Externals} : Type :=
  | CallInitialize (e : Env)
  | CallShutdown (e : Env) (bIsEngineShutdown : bool)
  | CallTick (DeltaTime : float)
  | CallReportEvent (EventName : string) (Attributes : list FAnalyticsEventAttribute)
  | CallLowDriveSpaceDetected
  | CallGetProvider
  | BindEngineAnalyticsConfigFunc (f : unit -> Config).

Definition call `{Header} (c : Call) : Run unit :=
  match c with
  | CallInitialize e => Initialize e
  | CallShutdown e b => Shutdown e b
  | CallTick DeltaTime => Tick DeltaTime
  | CallReportEvent EventName Attributes => ReportEvent EventName Attributes
  | CallLowDriveSpaceDetected => LowDriveSpaceDetected
  | CallGetProvider => _ <- GetProvider ;; unit_run tt
  | BindEngineAnalyticsConfigFunc f =>
      _ <- GetEngineAnalyticsConfigFunc ;; modify (set_EngineAnalyticsConfigFunc f)
  end.

Fixpoint calls `{Header} (cs : list Call) : Run unit :=
  match cs with
  | [] => unit_run tt
  | c :: cs' => call c ;;; calls cs'
  end.

(** ** Statements about the statics and the events *)

(** What holds of the statics between two calls: the flag says whether the
    provider pointer is set, a summary sender refers to the provider the
    pointer holds, and without editor support there is neither a summary
    writer nor a summary sender. *)
Definition consistent `{Externals} (s : Statics) : Prop :=
  bIsInitialized s = IsValid (Analytics s)
  /\ (forall sender, SessionSummarySender s = Some sender ->
        Analytics s = Some (AnalyticsProvider sender))
  /\ (WITH_EDITOR = false ->
        SessionSummaryWriter s = None /\ SessionSummarySender s = None).

(** The life of the session manager read off the events: [Initialize] on a
    manager that is not alive makes it alive, [Shutdown] on a live one ends
    it, [Tick] needs a live one. The result is whether the manager is alive
    at the end, or [None] when an event comes out of turn. *)
Fixpoint session_manager_alive `{Externals} (alive : bool) (l : list Event)
  : option bool :=
  match l with
  | [] => Some alive
  | SessionManager_Initialize :: l' =>
      if alive then None else session_manager_alive true l'
  | SessionManager_Shutdown :: l' =>
      if alive then session_manager_alive false l' else None
  | SessionManager_Tick _ :: l' =>
      if alive then session_manager_alive true l' else None
  | _ :: l' => session_manager_alive alive l'
  end.

(** The same for the summary writer, whose [LowDriveSpaceDetected] needs a
    live writer too. *)
Fixpoint summary_writer_alive `{Externals} (alive : bool) (l : list Event)
  : option bool :=
  match l with
  | [] => Some alive
  | SummaryWriter_Initialize :: l' =>
      if alive then None else summary_writer_alive true l'
  | SummaryWriter_Shutdown :: l' =>
      if alive then summary_writer_alive false l' else None
  | SummaryWriter_Tick _ :: l' =>
      if alive then summary_writer_alive true l' else None
  | SummaryWriter_LowDriveSpaceDetected :: l' =>
      if alive then summary_writer_alive true l' else None
  | _ :: l' => summary_writer_alive alive l'
  end.

(** The statics between two calls, with the two lives. *)
Definition invariant `{Externals} (s : Statics) : Prop :=
  consistent s
  /\ session_manager_alive false (Events s) = Some (IsValid (SessionManager s))
  /\ summary_writer_alive false (Events s) = Some (IsValid (SessionSummaryWriter s)).

(** An outcome that is not a null dereference and, when the run returned,
    has statics that satisfy [Q]. *)
Definition safely `{Externals} {A : Type} (Q : Statics -> Prop) (o : Outcome A) : Prop :=
  match o with
  | Returned _ s => Q s
  | Aborted (CheckFailed _) => True
  | Aborted NullDereference => False
  end.

(** [IsAvailable()] tests the provider pointer. *)
Definition IsAvailable_tests_Analytics `{Header} : Prop :=
  forall s, IsAvailable s = IsValid (Analytics s).

(** All five pointers and flags released. *)
Definition released `{Externals} (s : Statics) : Prop :=
  bIsInitialized s = false
  /\ Analytics s = None
  /\ SessionManager s = None
  /\ SessionSummaryWriter s = None
  /\ SessionSummarySender s = None.

(** The event is a call of [FStudioAnalytics::ReportEvent]. *)
Definition is_studio_report `{Externals} (ev : Event) : bool :=
  match ev with
  | StudioAnalytics_ReportEvent _ _ => true
  | _ => false
  end.

(** Nothing was ever created: all pointers are null, and the only events
    are reports to the studio analytics. *)
Definition inert `{Externals} (s : Statics) : Prop :=
  released s /\ forallb is_studio_report (Events s) = true.

(** [s] ends with [suffix]. *)
Definition ends_with (suffix s : string) : Prop :=
  exists prefix : string, s = prefix +:+ suffix.

(** The last character of a string. *)
Fixpoint last_char (s : string) : option Ascii.ascii :=
  match s with
  | EmptyString => None
  | String c EmptyString => Some c
  | String _ s' => last_char s'
  end.

(** The configuration function in force after a sequence of calls that
    started with [f] in force: the last one bound, if any. *)
Fixpoint last_bound `{Externals} (cs : list Call) (f : unit -> Config) : unit -> Config :=
  match cs with
  | [] => f
  | BindEngineAnalyticsConfigFunc g :: cs' => last_bound cs' g
  | _ :: cs' => last_bound cs' f
  end.

(** ** Concrete inputs *)

Inductive sample_build_type : Type :=
  | sample_development | sample_test | sample_debug | sample_release.

Definition sample_build_type_eq_dec : EqDecision sample_build_type.
Proof. intros x y. unfold Decision. decide equality. Defined.

(** An editor build that is not a debug build: providers are numbers,
    attribute values are strings, time steps are integers. *)
Definition sample_externals : Externals :=
  {| IAnalyticsProviderET := nat;
     OtherConfig := unit;
     EAnalyticsBuildType := sample_build_type;
     Development := sample_development;
     Release := sample_release;
     EAnalyticsBuildType_eq_dec := sample_build_type_eq_dec;
     EEngineSessionManagerMode := unit;
     Editor := tt;
     AttributeValue := string;
     float := Z;
     WITH_EDITOR := true;
     UE_BUILD_DEBUG := false |}.

(** [IsAvailable] as a test of the provider pointer. *)
Definition sample_header : @Header sample_externals :=
  @Build_Header sample_externals (fun s => IsValid (@Analytics sample_externals s)).

Definition sample_analytics : @AnalyticsET sample_externals :=
  @Build_AnalyticsET sample_externals
    (@Build_Config sample_externals "" "" "" "" tt).

Definition sample_engine : @UEngine sample_externals :=
  @Build_UEngine sample_externals true
    [@Build_FAnalyticsEventAttribute sample_externals "Platform" "Desktop"].

(** An editor run with analytics enabled; [provider] is what the analytics
    module returns for every configuration, [in_process] says that the crash
    reporter runs in this process. *)
Definition sample_env (provider : option nat) (in_process : bool) : @Env sample_externals :=
  @Build_Env sample_externals
    sample_development false false None "4.25.0"
    (fun _ => provider)
    (Some sample_engine) true false
    "login" "account" "os"
    (@Build_UGeneralProjectSettings sample_externals "Game" "0001" "A game" "1.0")
    "4318" "7812" "161" "27.21" "456.71" "17179869184" "8" "16"
    "GPU" "GPU" "CPU vendor" "CPU brand" "10" "0" "10.0.19041" "true"
    1234 (negb in_process) 4321 true.

Definition sample_attributes : list (@FAnalyticsEventAttribute sample_externals) :=
  [@Build_FAnalyticsEventAttribute sample_externals "Map" "Entry"].

(** A session: start, two frames with an event between them, a shutdown that
    is not the engine's, a second start, and the engine's shutdown. *)
Definition sample_session : list (@Call sample_externals) :=
  [ CallInitialize (sample_env (Some 5%nat) true);
    @CallTick sample_externals 16%Z;
    CallReportEvent "Editor.Usage" sample_attributes;
    @CallTick sample_externals 17%Z;
    CallLowDriveSpaceDetected;
    CallShutdown (sample_env (Some 5%nat) true) false;
    CallInitialize (sample_env (Some 6%nat) true);
    CallShutdown (sample_env (Some 6%nat) true) true ].

(** The first four calls of [sample_session]: a session is running. *)
Definition sample_running : list (@Call sample_externals) :=
  [ CallInitialize (sample_env (Some 5%nat) true);
    @CallTick sample_externals 16%Z;
    CallReportEvent "Editor.Usage" sample_attributes;
    @CallTick sample_externals 17%Z ].

Definition sample_startup : @Statics sample_externals :=
  @startup sample_externals sample_analytics.

(** The statics after [sample_running] and after [sample_session]. *)
Definition sample_running_statics : @Statics sample_externals :=
  Eval vm_compute in
    match @calls sample_externals sample_header sample_running sample_startup with
    | Returned _ s => s
    | Aborted _ => sample_startup
    end.

Definition sample_session_statics : @Statics sample_externals :=
  Eval vm_compute in
    match @calls sample_externals sample_header sample_session sample_startup with
    | Returned _ s => s
    | Aborted _ => sample_startup
    end.

(** A build without editor support, with the same types. *)
Definition sample_game_externals : Externals :=
  {| IAnalyticsProviderET := nat;
     OtherConfig := unit;
     EAnalyticsBuildType := sample_build_type;
     Development := sample_development;
     Release := sample_release;
     EAnalyticsBuildType_eq_dec := sample_build_type_eq_dec;
     EEngineSessionManagerMode := unit;
     Editor := tt;
     AttributeValue := string;
     float := Z;
     WITH_EDITOR := false;
     UE_BUILD_DEBUG := false |}.

Definition sample_game_header : @Header sample_game_externals :=
  @Build_Header sample_game_externals
    (fun s => IsValid (@Analytics sample_game_externals s)).

Definition sample_game_analytics : @AnalyticsET sample_game_externals :=
  @Build_AnalyticsET sample_game_externals
    (@Build_Config sample_game_externals "" "" "" "" tt).

Definition sample_game_env : @Env sample_game_externals :=
  @Build_Env sample_game_externals
    sample_release false false None "4.25.0"
    (fun _ => Some 9%nat)
    (Some (@Build_UEngine sample_game_externals true [])) true false
    "login" "account" "os"
    (@Build_UGeneralProjectSettings sample_game_externals "Game" "0001" "A game" "1.0")
    "4318" "7812" "161" "27.21" "456.71" "17179869184" "8" "16"
    "GPU" "GPU" "CPU vendor" "CPU brand" "10" "0" "10.0.19041" "true"
    0 false 4321 true.

(** A game run: start, a frame, an event, shutdown. *)
Definition sample_game_session : list (@Call sample_game_externals) :=
  [ CallInitialize sample_game_env;
    @CallTick sample_game_externals 16%Z;
    @CallReportEvent sample_game_externals "Game.Started" [];
    CallShutdown sample_game_env true ].

Definition sample_game_statics : @Statics sample_game_externals :=
  Eval vm_compute in
    match @calls sample_game_externals sample_game_header sample_game_session
            (@startup sample_game_externals sample_game_analytics) with
    | Returned _ s => s
    | Aborted _ => @startup sample_game_externals sample_game_analytics
    end.

(** A configuration function that sets the key, and a session that binds
    it before it starts. *)
Definition sample_config_func : unit -> @Config sample_externals :=
  fun _ => @Build_Config sample_externals "Studio.Key" "" "" "" tt.

Definition sample_bound_session : list (@Call sample_externals) :=
  BindEngineAnalyticsConfigFunc sample_config_func :: sample_session.

Definition sample_bound_statics : @Statics sample_externals :=
  Eval vm_compute in
    match @calls sample_externals sample_header sample_bound_session sample_startup with
    | Returned _ s => s
    | Aborted _ => sample_startup
    end.

End FEngineAnalytics.

(** * Properties *)

(** ** The state monad *)

Lemma value_bind {S A B : Type} (m : State S A) (k : A -> State S B) (s : S) :
  value (bind m k) s = value (k (value m s)) (after m s).
Proof. unfold value, after, bind. destruct (m s) as [a s']. reflexivity. Qed.

Lemma after_bind {S A B : Type} (m : State S A) (k : A -> State S B) (s : S) :
  after (bind m k) s = after (k (value m s)) (after m s).
Proof. unfold value, after, bind. destruct (m s) as [a s']. reflexivity. Qed.

Lemma value_and_then {S : Type} (a b : State S bool) (s : S) :
  value (a &&& b) s = if value a s then value b (after a s) else false.
Proof. unfold and_then. rewrite value_bind. destruct (value a s); reflexivity. Qed.

Lemma after_and_then {S : Type} (a b : State S bool) (s : S) :
  after (a &&& b) s = if value a s then after b (after a s) else after a s.
Proof. unfold and_then. rewrite after_bind. destruct (value a s); reflexivity. Qed.

Lemma value_or_else {S : Type} (a b : State S bool) (s : S) :
  value (a ||| b) s = if value a s then true else value b (after a s).
Proof. unfold or_else. rewrite value_bind. destruct (value a s); reflexivity. Qed.

Lemma after_or_else {S : Type} (a b : State S bool) (s : S) :
  after (a ||| b) s = if value a s then after a s else after b (after a s).
Proof. unfold or_else. rewrite after_bind. destruct (value a s); reflexivity. Qed.

Lemma read_only_load {S A : Type} (field : S -> A) : read_only (load field).
Proof. intros s. reflexivity. Qed.

Lemma read_only_ret {S A : Type} (a : A) : read_only (ret (S := S) a).
Proof. intros s. reflexivity. Qed.

Lemma read_only_bind {S A B : Type} (m : State S A) (k : A -> State S B) :
  read_only m -> (forall a, read_only (k a)) -> read_only (bind m k).
Proof. intros Hm Hk s. rewrite after_bind, Hk. apply Hm. Qed.

Lemma read_only_and_then {S : Type} (a b : State S bool) :
  read_only a -> read_only b -> read_only (a &&& b).
Proof.
  intros Ha Hb. apply read_only_bind; [exact Ha|].
  intros [|]; [exact Hb | apply read_only_ret].
Qed.

Lemma read_only_or_else {S : Type} (a b : State S bool) :
  read_only a -> read_only b -> read_only (a ||| b).
Proof.
  intros Ha Hb. apply read_only_bind; [exact Ha|].
  intros [|]; [apply read_only_ret | exact Hb].
Qed.

(** After a read-only operand, the other operand sees the same state. *)
Lemma value_and_then_read_only {S : Type} (a b : State S bool) (s : S) :
  read_only a -> value (a &&& b) s = value a s && value b s.
Proof.
  intros Ha. rewrite value_and_then, Ha. destruct (value a s); reflexivity.
Qed.

Lemma value_or_else_read_only {S : Type} (a b : State S bool) (s : S) :
  read_only a -> value (a ||| b) s = value a s || value b s.
Proof.
  intros Ha. rewrite value_or_else, Ha. destruct (value a s); reflexivity.
Qed.

(** A read-only computation answers the same when it is called again. *)
Lemma twice_read_only {S A : Type} (m : State S A) (s : S) :
  read_only m -> twice m s = (value m s, value m s, s).
Proof.
  intros Hm. unfold twice, bind, ret.
  pose proof (Hm s) as Hs. unfold after, value in *.
  destruct (m s) as [x s1] eqn:E1. simpl in Hs. subst s1.
  rewrite E1. reflexivity.
Qed.

Create HintDb fx.
#[local] Hint Resolve read_only_load read_only_ret read_only_and_then
  read_only_or_else : fx.

(** ** The capability gate *)

Lemma int32_to_bool_true (x : Z) : int32_to_bool x = true <-> x <> 0%Z.
Proof.
  unfold int32_to_bool. destruct (Z.eqb_spec x 0); simpl; split; congruence.
Qed.

Lemma RHISupportsGPUParticles_read_only `{RHIDefinitions} :
  read_only RHISupportsGPUParticles.
Proof. unfold RHISupportsGPUParticles. auto 10 with fx. Qed.

Lemma SupportsGPUParticles_read_only `{RenderUtils} (Platform : EShaderPlatform) :
  helpers_read_only -> read_only (SupportsGPUParticles Platform).
Proof.
  intros [Hfl Hpc]. unfold SupportsGPUParticles. auto with fx.
Qed.

(** The value of the runtime gate is the conjunction of its six operands. *)
Lemma RHISupportsGPUParticles_value `{RHIDefinitions} (g : Globals) :
  value RHISupportsGPUParticles g =
    int32_to_bool (bAllowGPUParticles (CVars g))
    && GSupportsMultipleRenderTargets g
    && GSupportsWideMRT g
    && Supported (GPixelFormats g PF_G32R32F)
    && GSupportsTexture3D g
    && GSupportsResourceView g.
Proof.
  unfold RHISupportsGPUParticles.
  repeat (rewrite value_and_then_read_only by auto 10 with fx).
  reflexivity.
Qed.

(** What the platform gate answers: the first helper's answer, or else the
    second helper's answer in the state the first one left. *)
Lemma SupportsGPUParticles_value `{RenderUtils} (Platform : EShaderPlatform) (g : Globals) :
  value (SupportsGPUParticles Platform) g =
    value (IsFeatureLevelSupported Platform ES3_1) g
    || value (IsPCPlatform Platform) (after (IsFeatureLevelSupported Platform ES3_1) g).
Proof.
  unfold SupportsGPUParticles. rewrite value_or_else.
  destruct (value (IsFeatureLevelSupported Platform ES3_1) g); reflexivity.
Qed.

(** C1: [RHISupportsGPUParticles()] returns true exactly when the six
    conditions hold together: [FXConsoleVariables::bAllowGPUParticles] is not
    zero, and [GSupportsMultipleRenderTargets], [GSupportsWideMRT],
    [GPixelFormats[PF_G32R32F].Supported], [GSupportsTexture3D] and
    [GSupportsResourceView] are true. *)
Theorem RHISupportsGPUParticles_iff `{RHIDefinitions} (g : Globals) :
  value RHISupportsGPUParticles g = true <-> runtime_conditions g.
Proof.
  rewrite RHISupportsGPUParticles_value. unfold runtime_conditions.
  rewrite <- int32_to_bool_true.
  repeat rewrite andb_true_iff. tauto.
Qed.

(** C2: whatever the other capability flags are, [RHISupportsGPUParticles()]
    returns false when [FXConsoleVariables::bAllowGPUParticles] is false,
    that is, zero. *)
Theorem RHISupportsGPUParticles_not_allowed `{RHIDefinitions} (g : Globals) :
  bAllowGPUParticles (CVars g) = 0%Z ->
  value RHISupportsGPUParticles g = false.
Proof.
  intros Hallow. rewrite RHISupportsGPUParticles_value, Hallow. reflexivity.
Qed.

Lemma RHISupportsGPUParticles_not_allowed_witness :
  bAllowGPUParticles (CVars (sample_globals 0 true)) = 0%Z
  /\ value (@RHISupportsGPUParticles sample_rhi) (sample_globals 0 true) = false.
Proof.
  split; [reflexivity|].
  apply (@RHISupportsGPUParticles_not_allowed sample_rhi (sample_globals 0 true)).
  reflexivity.
Defined.

(** C3: [SupportsGPUParticles(Platform)] returns true if and only if
    [IsFeatureLevelSupported(Platform, ERHIFeatureLevel::ES3_1)] holds or
    [IsPCPlatform(Platform)] holds, and its result is determined by these two
    answers alone: two calls for which the two answers agree return the same
    result. The feature-level helper is taken to change no global. *)
Theorem SupportsGPUParticles_iff `{RenderUtils} :
  (forall p, read_only (IsFeatureLevelSupported p ES3_1)) ->
  forall (Platform : EShaderPlatform) (g : Globals),
    (value (SupportsGPUParticles Platform) g = true <->
       value (IsFeatureLevelSupported Platform ES3_1) g = true
       \/ value (IsPCPlatform Platform) g = true)
    /\ (forall (Platform' : EShaderPlatform) (g' : Globals),
          value (IsFeatureLevelSupported Platform ES3_1) g
            = value (IsFeatureLevelSupported Platform' ES3_1) g' ->
          value (IsPCPlatform Platform) g = value (IsPCPlatform Platform') g' ->
          value (SupportsGPUParticles Platform) g
            = value (SupportsGPUParticles Platform') g').
Proof.
  intros Hfl Platform g. split.
  - rewrite SupportsGPUParticles_value, Hfl. apply orb_true_iff.
  - intros Platform' g' Efl Epc.
    rewrite !SupportsGPUParticles_value, !Hfl. congruence.
Qed.

Lemma sample_feature_level_read_only :
  forall p, read_only (@IsFeatureLevelSupported sample_rhi sample_utils p (@ES3_1 sample_rhi)).
Proof. intros p s. reflexivity. Defined.

Lemma sample_helpers_read_only : @helpers_read_only sample_rhi sample_utils.
Proof. split; intros; intros s; reflexivity. Defined.

Lemma SupportsGPUParticles_iff_witness :
  (forall p, read_only (@IsFeatureLevelSupported sample_rhi sample_utils p (@ES3_1 sample_rhi)))
  /\ value (@SupportsGPUParticles sample_rhi sample_utils sample_desktop)
       (sample_globals 1 true) = true
  /\ value (@SupportsGPUParticles sample_rhi sample_utils sample_handheld)
       (sample_globals 1 true) = false.
Proof.
  split; [exact sample_feature_level_read_only|].
  pose proof (@SupportsGPUParticles_iff sample_rhi sample_utils
                sample_feature_level_read_only) as Hiff.
  split.
  - apply (proj1 (Hiff sample_desktop (sample_globals 1 true))).
    right. reflexivity.
  - destruct (value (@SupportsGPUParticles sample_rhi sample_utils sample_handheld)
                (sample_globals 1 true)) eqn:E; [|reflexivity].
    apply (proj1 (Hiff sample_handheld (sample_globals 1 true))) in E.
    destruct E as [E|E]; discriminate E.
Defined.

(** C4: in a device state without 3-D texture support, on a platform for
    which [IsPCPlatform] holds, [SupportsGPUParticles(Platform)] returns true,
    whatever the feature-level helper answers, and
    [RHISupportsGPUParticles()] returns false. *)
Theorem desktop_without_texture3D `{RenderUtils}
  (Platform : EShaderPlatform) (g : Globals) :
  read_only (IsFeatureLevelSupported Platform ES3_1) ->
  GSupportsTexture3D g = false ->
  value (IsPCPlatform Platform) g = true ->
  value (SupportsGPUParticles Platform) g = true
  /\ value RHISupportsGPUParticles g = false.
Proof.
  intros Hfl Htex Hpc. split.
  - rewrite SupportsGPUParticles_value, Hfl, Hpc. apply orb_true_r.
  - rewrite RHISupportsGPUParticles_value, Htex.
    rewrite andb_false_r. reflexivity.
Qed.

Lemma desktop_without_texture3D_witness :
  value (@IsFeatureLevelSupported sample_rhi sample_utils sample_desktop (@ES3_1 sample_rhi))
    (sample_globals 1 false) = false
  /\ value (@SupportsGPUParticles sample_rhi sample_utils sample_desktop)
       (sample_globals 1 false) = true
  /\ value (@RHISupportsGPUParticles sample_rhi) (sample_globals 1 false) = false.
Proof.
  split; [reflexivity|].
  apply (@desktop_without_texture3D sample_rhi sample_utils sample_desktop
           (sample_globals 1 false)).
  - intros s. reflexivity.
  - reflexivity.
  - reflexivity.
Defined.

(** C9: [SupportsGPUParticles(Platform)] and [RHISupportsGPUParticles()]
    modify no state, and each returns the same result when it is called
    again with the same argument in the same state of the globals. For
    [SupportsGPUParticles] this rests on the two helpers it calls changing
    no global. *)
Theorem gate_side_effect_free `{RenderUtils}
  (Platform : EShaderPlatform) (g : Globals) :
  helpers_read_only ->
  after (SupportsGPUParticles Platform) g = g
  /\ after RHISupportsGPUParticles g = g
  /\ twice (SupportsGPUParticles Platform) g =
       (value (SupportsGPUParticles Platform) g,
        value (SupportsGPUParticles Platform) g, g)
  /\ twice RHISupportsGPUParticles g =
       (value RHISupportsGPUParticles g, value RHISupportsGPUParticles g, g).
Proof.
  intros Hhelpers.
  pose proof (SupportsGPUParticles_read_only Platform Hhelpers) as Hs.
  pose proof RHISupportsGPUParticles_read_only as Hr.
  repeat split.
  - apply Hs.
  - apply Hr.
  - apply twice_read_only, Hs.
  - apply twice_read_only, Hr.
Qed.

Lemma gate_side_effect_free_witness :
  twice (@SupportsGPUParticles sample_rhi sample_utils sample_console) (sample_globals 1 true)
    = (true, true, sample_globals 1 true)
  /\ twice (@RHISupportsGPUParticles sample_rhi) (sample_globals 1 true)
    = (true, true, sample_globals 1 true).
Proof.
  pose proof (@gate_side_effect_free sample_rhi sample_utils sample_console
                (sample_globals 1 true) sample_helpers_read_only) as (_ & _ & Hs & Hr).
  split; [exact Hs | exact Hr].
Defined.

(** ** The base class *)

Lemma step_keeps_pending_kill `{Overrides Derived}
  (c : Call) (this : FFXSystemInterface Derived) :
  bIsPendingKill this = true -> bIsPendingKill (step c this) = true.
Proof. intros Hk. destruct c; simpl; auto. Qed.

Lemma run_keeps_pending_kill `{Overrides Derived}
  (cs : list Call) (this : FFXSystemInterface Derived) :
  bIsPendingKill this = true -> bIsPendingKill (run cs this) = true.
Proof.
  revert this. induction cs as [|c cs IH]; intros this Hk; simpl.
  - exact Hk.
  - apply IH, step_keeps_pending_kill, Hk.
Qed.

Lemma run_app `{Overrides Derived}
  (cs1 cs2 : list Call) (this : FFXSystemInterface Derived) :
  run (cs1 ++ cs2) this = run cs2 (run cs1 this).
Proof.
  revert this. induction cs1 as [|c cs1 IH]; intros this; simpl; [reflexivity|].
  apply IH.
Qed.

Lemma history_head `{Overrides Derived}
  (cs : list Call) (this : FFXSystemInterface Derived) :
  exists t, history cs this = bIsPendingKill this :: t.
Proof. destruct cs; simpl; eauto. Qed.

Lemma falls_cons (a b : bool) (t : list bool) :
  falls (a :: b :: t) = ((if a && negb b then 1 else 0) + falls (b :: t))%nat.
Proof. destruct a, b; reflexivity. Qed.

Lemma rises_cons (a b : bool) (t : list bool) :
  rises (a :: b :: t) = ((if negb a && b then 1 else 0) + rises (b :: t))%nat.
Proof. destruct a, b; reflexivity. Qed.

Lemma history_never_falls `{Overrides Derived}
  (cs : list Call) (this : FFXSystemInterface Derived) :
  falls (history cs this) = 0%nat.
Proof.
  revert this. induction cs as [|c cs IH]; intros this.
  - simpl. destruct (value IsPendingKill this); reflexivity.
  - change (history (c :: cs) this)
      with (bIsPendingKill this :: history cs (step c this)).
    specialize (IH (step c this)).
    destruct (history_head cs (step c this)) as [t Ht].
    rewrite Ht in *. rewrite falls_cons, IH.
    destruct (bIsPendingKill this) eqn:Hk; [|reflexivity].
    rewrite (step_keeps_pending_kill c this Hk). reflexivity.
Qed.

Lemma history_rises_bound `{Overrides Derived}
  (cs : list Call) (this : FFXSystemInterface Derived) :
  (rises (history cs this) <= if bIsPendingKill this then 0 else 1)%nat.
Proof.
  revert this. induction cs as [|c cs IH]; intros this.
  - simpl. destruct (value IsPendingKill this), (bIsPendingKill this); simpl; lia.
  - change (history (c :: cs) this)
      with (bIsPendingKill this :: history cs (step c this)).
    specialize (IH (step c this)).
    destruct (history_head cs (step c this)) as [t Ht].
    rewrite Ht in *. rewrite rises_cons.
    destruct (bIsPendingKill this) eqn:Hk.
    + rewrite (step_keeps_pending_kill c this Hk) in *.
      cbn [negb andb] in *. lia.
    + destruct (bIsPendingKill (step c this)); cbn [negb andb] in *; lia.
Qed.

(** C5: [IsPendingKill()] is false on a newly constructed object and true
    after [OnDestroy()]; once [OnDestroy()] has been called it stays true
    through every later call; along any sequence of calls the answer never
    goes from true to false, and goes from false to true at most once. *)
Theorem pending_kill_lifecycle `{Overrides Derived}
  (d : Derived) (this : FFXSystemInterface Derived) (before later cs : list Call) :
  value IsPendingKill (construct d) = false
  /\ value IsPendingKill (after OnDestroy this) = true
  /\ value IsPendingKill (run (before ++ CallOnDestroy :: later) this) = true
  /\ falls (history cs this) = 0%nat
  /\ (rises (history cs this) <= 1)%nat.
Proof.
  split; [reflexivity|]. split; [reflexivity|]. split; [|split].
  - rewrite run_app. simpl. apply run_keeps_pending_kill. reflexivity.
  - apply history_never_falls.
  - pose proof (history_rises_bound cs this) as Hb.
    destruct (bIsPendingKill this); lia.
Qed.

(** C6: the base-class [GetInterface(InName)] returns [nullptr] for every
    name and leaves the object as it was. *)
Theorem GetInterface_not_found (Derived : Type)
  (InName : FName) (this : FFXSystemInterface Derived) :
  GetInterface InName this = (None, this).
Proof. reflexivity. Qed.

(** C8: the base-class [DestroyGPUSimulation()] does nothing: the object it
    returns is the object it was called on, pending-kill flag included. *)
Theorem DestroyGPUSimulation_no_op (Derived : Type) (this : FFXSystemInterface Derived) :
  after DestroyGPUSimulation this = this
  /\ bIsPendingKill (after DestroyGPUSimulation this) = bIsPendingKill this
  /\ derived (after DestroyGPUSimulation this) = derived this.
Proof. repeat split. Qed.

(** C10: the base-class [OnDestroy()] is idempotent: a second call leaves the
    object as the first call left it, with [bIsPendingKill] true and the
    members of the derived class untouched. *)
Theorem OnDestroy_idempotent (Derived : Type) (this : FFXSystemInterface Derived) :
  after OnDestroy (after OnDestroy this) = after OnDestroy this
  /\ bIsPendingKill (after OnDestroy this) = true
  /\ derived (after OnDestroy this) = derived this
  /\ derived (after OnDestroy (after OnDestroy this)) = derived this.
Proof. repeat split. Qed.

Example history_sample :
  history sample_calls (construct 0%nat)
    = [false; false; false; true; true; true; true; true]
  /\ run sample_calls (construct 0%nat) = {| bIsPendingKill := true; derived := 7%nat |}.
Proof. split; reflexivity. Qed.

(** ** Creation *)

Lemma value_on_globals `{RHIDefinitions} {Custom FGPUSortManager A : Type}
  (m : State Globals A) (w : World Custom FGPUSortManager) :
  value (on_globals m) w = value m (globals w).
Proof. unfold value, on_globals. destruct (m (globals w)); reflexivity. Qed.

(** What [Create] returns, by cases on the registered factories and on the
    gate. *)
Lemma Create_value `{RenderUtils} {Custom FGPUSortManager : Type}
  (InFeatureLevel : ERHIFeatureLevel) (InShaderPlatform : EShaderPlatform)
  (w : World Custom FGPUSortManager) :
  value (Create InFeatureLevel InShaderPlatform) w =
    match first_custom InFeatureLevel InShaderPlatform (GPUSortManager w)
            (map_to_list (CreateCustomFXDelegates w)) with
    | Some i => Some (upcast i)
    | None =>
        Some (construct
                (if value (SupportsGPUParticles InShaderPlatform &&& RHISupportsGPUParticles)
                      (globals w)
                 then BuiltInSystem else DisabledSystem))
    end.
Proof.
  unfold Create. rewrite value_bind.
  change (value (load ?f) w) with (f w). change (after (load ?f) w) with w.
  cbv beta.
  destruct (first_custom _ _ _ _) as [i|]; [reflexivity|].
  rewrite value_bind, value_on_globals. reflexivity.
Qed.

(** C7: for every feature level and shader platform, [Create] returns an
    object, never [nullptr]; when no registered factory makes an object for
    the request and the capability gate refuses the platform, the object is
    the disabled one. *)
Theorem Create_never_null `{RenderUtils} {Custom FGPUSortManager : Type}
  (InFeatureLevel : ERHIFeatureLevel) (InShaderPlatform : EShaderPlatform)
  (w : World Custom FGPUSortManager) :
  exists inst : FFXSystemInterface (Implementation Custom),
    value (Create InFeatureLevel InShaderPlatform) w = Some inst
    /\ (first_custom InFeatureLevel InShaderPlatform (GPUSortManager w)
          (map_to_list (CreateCustomFXDelegates w)) = None ->
        value (SupportsGPUParticles InShaderPlatform &&& RHISupportsGPUParticles)
          (globals w) = false ->
        inst = construct DisabledSystem).
Proof.
  rewrite Create_value.
  destruct (first_custom _ _ _ _) as [i|] eqn:Hcustom.
  - exists (upcast i). split; [reflexivity|]. intros Hnone. discriminate Hnone.
  - eexists. split; [reflexivity|]. intros _ Hgate. rewrite Hgate. reflexivity.
Qed.

Example Create_sample :
  value (@Create sample_rhi sample_utils nat unit sample_high sample_desktop)
      (sample_world 1 sample_registry)
    = Some {| bIsPendingKill := false; derived := CustomSystem 7%nat |}
  /\ value (@Create sample_rhi sample_utils nat unit sample_high sample_handheld)
      (sample_world 1 sample_registry)
    = Some (construct DisabledSystem)
  /\ value (@Create sample_rhi sample_utils nat unit sample_high sample_console)
      (sample_world 1 ∅)
    = Some (construct BuiltInSystem)
  /\ value (@Create sample_rhi sample_utils nat unit sample_high sample_console)
      (sample_world 0 ∅)
    = Some (construct DisabledSystem).
Proof. repeat split; vm_compute; reflexivity. Qed.

(** * Further properties of FXSystem.h *)

(** ** The runtime gate reads six operands and nothing else *)

(** X1: [RHISupportsGPUParticles()] depends on the truth values of its six
    operands only: two states of the globals that agree on them give the same
    answer, whatever the other console variables and the other entries of
    [GPixelFormats] are, and whichever non-zero value
    [bAllowGPUParticles] has. *)
Theorem RHISupportsGPUParticles_frame `{RHIDefinitions} (g g' : Globals) :
  same_runtime_operands g g' ->
  value RHISupportsGPUParticles g = value RHISupportsGPUParticles g'.
Proof.
  intros (Ha & Hm & Hw & Hp & Ht & Hr).
  rewrite !RHISupportsGPUParticles_value. congruence.
Qed.

Lemma RHISupportsGPUParticles_frame_witness :
  value (@RHISupportsGPUParticles sample_rhi) (sample_globals (-5) true)
  = value (@RHISupportsGPUParticles sample_rhi) sample_globals_other.
Proof.
  apply (@RHISupportsGPUParticles_frame sample_rhi
           (sample_globals (-5) true) sample_globals_other).
  repeat split.
Defined.

(** ** Sequences of calls *)


(** X2: after any sequence of calls, [IsPendingKill()] is true exactly when
    it was true before the sequence or the sequence contains a call of
    [OnDestroy()]. *)
Theorem pending_kill_after_run `{Overrides Derived}
  (cs : list Call) (this : FFXSystemInterface Derived) :
  value IsPendingKill (run cs this)
  = bIsPendingKill this || existsb calls_OnDestroy cs.
Proof.
  revert this. induction cs as [|c cs IH]; intros this.
  - simpl. rewrite orb_false_r. reflexivity.
  - change (run (c :: cs) this) with (run cs (step c this)).
    rewrite IH. simpl existsb.
    destruct c; simpl; try reflexivity.
    destruct (bIsPendingKill this); reflexivity.
Qed.

(** X3: calls of [GetInterface], [DestroyGPUSimulation] and [IsPendingKill]
    can be left out of any sequence of calls: the object at the end is the
    same. *)
Theorem run_without_observers `{Overrides Derived}
  (cs : list Call) (this : FFXSystemInterface Derived) :
  run (filter may_change_object cs) this = run cs this.
Proof.
  revert this. induction cs as [|c cs IH]; intros this; [reflexivity|].
  destruct c; simpl; rewrite IH; reflexivity.
Qed.


(** * Properties of EngineAnalytics.cpp *)

Import FEngineAnalytics.

(** ** The configuration of the provider *)

Lemma DefaultAPIKeyET_not_empty `{Externals} (e : Env) :
  IsEmpty (DefaultAPIKeyET e) = false.
Proof. reflexivity. Qed.

(** X5: the configuration handed to the analytics module never has an empty
    API key, server or environment; a field the configured function set is
    passed on as it is, and so are the members the file does not name. *)
Theorem EpicAnalyticsConfig_fills_empty_fields `{Externals} (e : Env) (c : Config) :
  IsEmpty (APIKeyET (EpicAnalyticsConfig e c)) = false
  /\ IsEmpty (APIServerET (EpicAnalyticsConfig e c)) = false
  /\ IsEmpty (AppEnvironment (EpicAnalyticsConfig e c)) = false
  /\ (IsEmpty (APIKeyET c) = false -> APIKeyET (EpicAnalyticsConfig e c) = APIKeyET c)
  /\ (IsEmpty (APIServerET c) = false ->
      APIServerET (EpicAnalyticsConfig e c) = APIServerET c)
  /\ (IsEmpty (AppEnvironment c) = false ->
      AppEnvironment (EpicAnalyticsConfig e c) = AppEnvironment c)
  /\ (IsEmpty (AppVersionET c) = false ->
      AppVersionET (EpicAnalyticsConfig e c) = AppVersionET c)
  /\ (IsEmpty (AppVersionET c) = true ->
      AppVersionET (EpicAnalyticsConfig e c) = EngineVersion_Current_ToString e)
  /\ OtherMembers (EpicAnalyticsConfig e c) = OtherMembers c.
Proof.
  destruct c as [key server environment version other].
  unfold EpicAnalyticsConfig.
  destruct key, server, environment, version; cbn;
    repeat split; intros; (reflexivity || discriminate).
Qed.

(** X6: filling the empty fields is idempotent: a configuration that went
    through [EpicAnalyticsConfig] comes out of it unchanged. *)
Theorem EpicAnalyticsConfig_idempotent `{Externals} (e : Env) (c : Config) :
  EpicAnalyticsConfig e (EpicAnalyticsConfig e c) = EpicAnalyticsConfig e c.
Proof.
  destruct c as [key server environment version other].
  unfold EpicAnalyticsConfig.
  destruct key, server, environment, version; cbn;
    try reflexivity;
    destruct (EngineVersion_Current_ToString e); reflexivity.
Qed.

(** ** The lives of the session manager and of the summary writer *)

Lemma session_manager_alive_app `{Externals} (l l' : list Event) (alive : bool) :
  session_manager_alive alive (l ++ l') =
    match session_manager_alive alive l with
    | Some alive' => session_manager_alive alive' l'
    | None => None
    end.
Proof.
  revert alive. induction l as [|ev l IH]; intros alive; [reflexivity|].
  destruct ev, alive; simpl; auto.
Qed.

Lemma summary_writer_alive_app `{Externals} (l l' : list Event) (alive : bool) :
  summary_writer_alive alive (l ++ l') =
    match summary_writer_alive alive l with
    | Some alive' => summary_writer_alive alive' l'
    | None => None
    end.
Proof.
  revert alive. induction l as [|ev l IH]; intros alive; [reflexivity|].
  destruct ev, alive; simpl; auto.
Qed.

(** ** Every function keeps the invariant *)

(** Unfolding of the functions of the file down to tests on the statics and
    on the environment. *)
Ltac run_unfold :=
  cbv [Initialize Shutdown Tick ReportEvent LowDriveSpaceDetected GetProvider
       CreateEpicAnalyticsProvider GetEngineAnalyticsConfigFunc call
       bind_run unit_run get modify when checkf ensure emit abort
       IsValid andb orb negb
       record_event set_bIsInitialized set_Analytics set_SessionManager
       set_SessionSummaryWriter set_SessionSummarySender
       set_EngineAnalyticsConfigFunc
       bIsInitialized Analytics SessionManager SessionSummaryWriter
       SessionSummarySender EngineAnalyticsConfigFunc Events].

(** Case analysis on the innermost test of the goal. *)
Ltac split_test :=
  match goal with
  | |- context [match ?x with _ => _ end] =>
      lazymatch x with
      | context [match _ with _ => _ end] => fail
      | _ => destruct x eqn:?
      end
  end.

(** The leaves: the invariant of the statics reached. *)
Ltac close_invariant :=
  cbv [safely invariant consistent released IsValid
       bIsInitialized Analytics SessionManager SessionSummaryWriter
       SessionSummarySender EngineAnalyticsConfigFunc Events AnalyticsProvider] in *;
  rewrite ?session_manager_alive_app, ?summary_writer_alive_app;
  repeat match goal with
         | H : _ /\ _ |- _ => destruct H
         | H : session_manager_alive _ _ = _ |- _ => rewrite H; clear H
         | H : summary_writer_alive _ _ = _ |- _ => rewrite H; clear H
         end;
  simpl;
  repeat split; intros;
  repeat match goal with
         | H : ?a = ?a -> _ |- _ => specialize (H eq_refl)
         | H : forall x, Some ?y = Some x -> _ |- _ => specialize (H y eq_refl)
         | H : ?a = ?b -> _, H' : ?a = ?b |- _ => specialize (H H')
         | H : _ /\ _ |- _ => destruct H
         end;
  simplify_eq; simpl in *;
  try congruence; try discriminate; auto.

Lemma Shutdown_keeps_invariant `{Externals} (e : Env) (b : bool) (s : Statics) :
  invariant s -> safely invariant (Shutdown e b s).
Proof.
  intros Hinv. destruct s as [init provider manager writer sender config events].
  run_unfold. repeat split_test; close_invariant.
Qed.

Lemma Tick_keeps_invariant `{Externals} (DeltaTime : float) (s : Statics) :
  invariant s -> safely invariant (Tick DeltaTime s).
Proof.
  intros Hinv. destruct s as [init provider manager writer sender config events].
  run_unfold. repeat split_test; close_invariant.
Qed.

Lemma LowDriveSpaceDetected_keeps_invariant `{Externals} (s : Statics) :
  invariant s -> safely invariant (LowDriveSpaceDetected s).
Proof.
  intros Hinv. destruct s as [init provider manager writer sender config events].
  run_unfold. repeat split_test; close_invariant.
Qed.

Lemma GetProvider_keeps_invariant `{Header} (s : Statics) :
  invariant s -> safely invariant (GetProvider s).
Proof.
  intros Hinv. destruct s as [init provider manager writer sender config events].
  run_unfold. repeat split_test; close_invariant.
Qed.

Lemma ReportEvent_keeps_invariant `{Header} (EventName : string)
  (Attributes : list FAnalyticsEventAttribute) (s : Statics) :
  invariant s -> safely invariant (ReportEvent EventName Attributes s).
Proof.
  intros Hinv. destruct s as [init provider manager writer sender config events].
  run_unfold. repeat split_test; close_invariant.
Qed.

Lemma Initialize_keeps_invariant `{Header} (e : Env) (s : Statics) :
  invariant s -> safely invariant (Initialize e s).
Proof.
  intros Hinv. destruct s as [init provider manager writer sender config events].
  run_unfold. repeat split_test; close_invariant.
Qed.

Lemma call_keeps_invariant `{Header} (c : Call) (s : Statics) :
  invariant s -> safely invariant (call c s).
Proof.
  intros Hinv. destruct c.
  - apply Initialize_keeps_invariant, Hinv.
  - apply Shutdown_keeps_invariant, Hinv.
  - apply Tick_keeps_invariant, Hinv.
  - apply ReportEvent_keeps_invariant, Hinv.
  - apply LowDriveSpaceDetected_keeps_invariant, Hinv.
  - pose proof (GetProvider_keeps_invariant s Hinv) as Hp.
    simpl. unfold bind_run. destruct (GetProvider s); exact Hp.
  - destruct s. exact Hinv.
Qed.

Lemma calls_keep_invariant `{Header} (cs : list Call) (s : Statics) :
  invariant s -> safely invariant (calls cs s).
Proof.
  revert s. induction cs as [|c cs IH]; intros s Hinv; [exact Hinv|].
  pose proof (call_keeps_invariant c s Hinv) as Hc.
  simpl. unfold bind_run. destruct (call c s) as [[] s'|f]; [|exact Hc].
  apply IH, Hc.
Qed.

Lemma startup_invariant `{AnalyticsET} : invariant startup.
Proof. repeat split; intros; discriminate. Qed.

Lemma calls_app `{Header} (cs cs' : list Call) (s : Statics) :
  calls (cs ++ cs') s =
    match calls cs s with
    | Returned _ s' => calls cs' s'
    | Aborted f => Aborted f
    end.
Proof.
  revert s. induction cs as [|c cs IH]; intros s; [reflexivity|].
  simpl. unfold bind_run. destruct (call c s) as [[] s'|f]; [apply IH|reflexivity].
Qed.

Lemma reachable_invariant {E : Externals} {Hd : Header} {An : AnalyticsET}
  (cs : list Call) (s : Statics) :
  calls cs startup = Returned tt s -> invariant s.
Proof.
  intros Hcs. pose proof (calls_keep_invariant cs startup startup_invariant) as Hs.
  rewrite Hcs in Hs. exact Hs.
Qed.

(** ** What holds after any sequence of calls *)

(** X7: after any sequence of calls of the interface from program start,
    [bIsInitialized] is true exactly when the provider pointer [Analytics] is
    set. *)
Theorem initialized_iff_provider {E : Externals} {Hd : Header} {An : AnalyticsET}
  (cs : list Call) (s : Statics) :
  calls cs startup = Returned tt s ->
  bIsInitialized s = IsValid (Analytics s).
Proof. intros Hcs. apply (reachable_invariant cs s Hcs). Qed.

Lemma initialized_iff_provider_witness :
  @bIsInitialized sample_externals sample_running_statics = true
  /\ @bIsInitialized sample_externals sample_running_statics
     = IsValid (@Analytics sample_externals sample_running_statics).
Proof.
  split; [reflexivity|].
  apply (@initialized_iff_provider sample_externals sample_header sample_analytics
           sample_running sample_running_statics).
  vm_compute. reflexivity.
Defined.

(** X8: after any sequence of calls from program start, a summary sender
    that exists refers to the provider that [Analytics] holds: the sender
    never outlives the provider it was built with. *)
Theorem sender_refers_to_provider {E : Externals} {Hd : Header} {An : AnalyticsET}
  (cs : list Call) (s : Statics) (sender : FEditorSessionSummarySender) :
  calls cs startup = Returned tt s ->
  SessionSummarySender s = Some sender ->
  Analytics s = Some (AnalyticsProvider sender).
Proof.
  intros Hcs Hsender.
  destruct (reachable_invariant cs s Hcs) as [(_ & Hrefers & _) _].
  apply Hrefers, Hsender.
Qed.

Lemma sender_refers_to_provider_witness :
  @Analytics sample_externals sample_running_statics = Some 5%nat.
Proof.
  apply (@sender_refers_to_provider sample_externals sample_header sample_analytics
           sample_running sample_running_statics
           (@Build_FEditorSessionSummarySender sample_externals 5%nat "Editor" 4321)).
  - vm_compute. reflexivity.
  - reflexivity.
Defined.

(** X9: no sequence of calls from program start dereferences a null
    [Analytics] or [GEngine]: a run ends by returning or by a failed check.
    In particular [GetProvider] reaches [*Analytics.Get()] only when the
    pointer is set, whatever [IsAvailable] answers. *)
Theorem no_null_dereference {E : Externals} {Hd : Header} {An : AnalyticsET}
  (cs : list Call) :
  safely (fun _ => True) (calls cs startup).
Proof.
  pose proof (calls_keep_invariant cs startup startup_invariant) as Hs.
  destruct (calls cs startup) as [a s|[msg|]]; simpl in *; auto.
Qed.

(** X10: in the events of any sequence of calls from program start, the
    session manager is initialized only when none is alive, shut down and
    ticked only while one is alive, and one is alive at the end exactly when
    the pointer [SessionManager] is set. *)
Theorem session_manager_life {E : Externals} {Hd : Header} {An : AnalyticsET}
  (cs : list Call) (s : Statics) :
  calls cs startup = Returned tt s ->
  session_manager_alive false (Events s) = Some (IsValid (SessionManager s)).
Proof. intros Hcs. apply (reachable_invariant cs s Hcs). Qed.

Lemma session_manager_life_witness :
  session_manager_alive false (@Events sample_externals sample_session_statics)
  = Some false.
Proof.
  apply (@session_manager_life sample_externals sample_header sample_analytics
           sample_session sample_session_statics).
  vm_compute. reflexivity.
Defined.

(** X11: the same for the summary writer of editor builds: initialized only
    when none is alive; shut down, ticked and told of low drive space only
    while one is alive; alive at the end exactly when the pointer
    [SessionSummaryWriter] is set. *)
Theorem summary_writer_life {E : Externals} {Hd : Header} {An : AnalyticsET}
  (cs : list Call) (s : Statics) :
  calls cs startup = Returned tt s ->
  summary_writer_alive false (Events s) = Some (IsValid (SessionSummaryWriter s)).
Proof. intros Hcs. apply (reachable_invariant cs s Hcs). Qed.

Lemma summary_writer_life_witness :
  summary_writer_alive false (@Events sample_externals sample_running_statics)
  = Some true.
Proof.
  apply (@summary_writer_life sample_externals sample_header sample_analytics
           sample_running sample_running_statics).
  vm_compute. reflexivity.
Defined.

(** ** Initialize *)

Lemma bShouldInitAnalytics_editor `{Externals} (e : Env) (Engine : UEngine) :
  bShouldInitAnalytics e Engine = true -> WITH_EDITOR = true.
Proof.
  unfold bShouldInitAnalytics.
  destruct WITH_EDITOR; [reflexivity|]. destruct UE_BUILD_DEBUG; intros Hs; exact Hs.
Qed.

(** X12: when analytics are wanted but the analytics module returns no
    provider, and no summary sender exists and the crash reporter runs in
    this process, [Initialize] does not return: building the summary sender
    calls [GetProvider], whose check fails because [bIsInitialized] is still
    false. *)
Theorem Initialize_without_provider_aborts `{Header}
  (e : Env) (Engine : UEngine) (s : Statics) :
  bIsInitialized s = false ->
  GEngine e = Some Engine ->
  bShouldInitAnalytics e Engine = true ->
  CreateAnalyticsProvider e (EpicAnalyticsConfig e (EngineAnalyticsConfigFunc s tt)) = None ->
  SessionSummarySender s = None ->
  IsOutOfProcessCrashReporter e = false ->
  Initialize e s
  = Aborted (CheckFailed
               "FEngineAnalytics::GetProvider called outside of Initialize/Shutdown.").
Proof.
  intros Hinit Hengine Hshould Hprovider Hsender Hinprocess.
  pose proof (bShouldInitAnalytics_editor e Engine Hshould) as Heditor.
  destruct s as [init provider manager writer sender config events].
  simpl in *. subst init sender.
  run_unfold. rewrite Hengine, Hshould, Hprovider, Heditor, Hinprocess.
  destruct manager, writer; reflexivity.
Qed.

Lemma Initialize_without_provider_aborts_witness :
  @Initialize sample_externals sample_header (sample_env None true) sample_startup
  = Aborted (CheckFailed
               "FEngineAnalytics::GetProvider called outside of Initialize/Shutdown.").
Proof.
  apply (@Initialize_without_provider_aborts sample_externals sample_header
           (sample_env None true) sample_engine sample_startup);
    reflexivity.
Defined.

(** X13: after any sequence of calls from program start, [Initialize] stops
    at its first check, "called more than once", exactly when a provider is
    set; an earlier [Initialize] that got no provider does not count. *)
Theorem Initialize_more_than_once {E : Externals} {Hd : Header} {An : AnalyticsET}
  (cs : list Call) (s : Statics) (e : Env) :
  calls cs startup = Returned tt s ->
  Initialize e s
    = Aborted (CheckFailed "FEngineAnalytics::Initialize called more than once.")
  <-> IsValid (Analytics s) = true.
Proof.
  intros Hcs. destruct (reachable_invariant cs s Hcs) as [(Hflag & _) _].
  rewrite <- Hflag. clear Hflag.
  destruct s as [init provider manager writer sender config events].
  simpl. clear Hcs. split.
  - destruct init; [reflexivity|]. run_unfold.
    repeat split_test; intros Habs; discriminate Habs.
  - intros ->. reflexivity.
Qed.

Lemma Initialize_more_than_once_witness :
  @Initialize sample_externals sample_header (sample_env (Some 6%nat) true)
    sample_running_statics
  = Aborted (CheckFailed "FEngineAnalytics::Initialize called more than once.").
Proof.
  apply (proj2 (@Initialize_more_than_once sample_externals sample_header
                  sample_analytics sample_running sample_running_statics
                  (sample_env (Some 6%nat) true) eq_refl)).
  reflexivity.
Defined.

(** ** Shutdown *)

(** X14: [Shutdown] always returns. It leaves [bIsInitialized] false and
    [Analytics] null; it resets [SessionManager] when it is the engine's
    shutdown and leaves it alone otherwise; in editor builds it resets the
    summary writer and sender. A second [Shutdown] with the same argument
    changes nothing and calls no [Shutdown] of a component again. *)
Theorem Shutdown_releases_once `{Externals} (e e' : Env) (b : bool) (s : Statics) :
  exists s1 : Statics,
    Shutdown e b s = Returned tt s1
    /\ bIsInitialized s1 = false
    /\ Analytics s1 = None
    /\ SessionManager s1 = (if b then None else SessionManager s)
    /\ (WITH_EDITOR = true ->
        SessionSummaryWriter s1 = None /\ SessionSummarySender s1 = None)
    /\ Shutdown e' b s1 = Returned tt s1.
Proof.
  destruct s as [init provider manager writer sender config events].
  run_unfold.
  destruct manager, b, WITH_EDITOR, writer, sender, provider, (Analytics_IsUnique e);
    eexists; (split; [reflexivity|]); repeat split; intros; try discriminate;
    reflexivity.
Qed.

Lemma Shutdown_from_invariant `{Externals} (e : Env) (s : Statics) :
  invariant s -> safely released (Shutdown e true s).
Proof.
  intros Hinv. destruct s as [init provider manager writer sender config events].
  run_unfold. repeat split_test; close_invariant.
Qed.

(** X15: whatever calls came before, after the engine's shutdown,
    [Shutdown(true)], nothing is left: the flag is false and the provider,
    the session manager, the summary writer and the summary sender are all
    null. *)
Theorem engine_shutdown_releases_everything
  {E : Externals} {Hd : Header} {An : AnalyticsET}
  (cs : list Call) (e : Env) (s : Statics) :
  calls (cs ++ [CallShutdown e true]) startup = Returned tt s ->
  released s.
Proof.
  rewrite calls_app. intros Hcs.
  pose proof (calls_keep_invariant cs startup startup_invariant) as Hinv.
  destruct (calls cs startup) as [[] s0|f]; [|discriminate Hcs].
  simpl in Hinv, Hcs. unfold bind_run in Hcs.
  pose proof (Shutdown_from_invariant e s0 Hinv) as Hreleased.
  destruct (Shutdown e true s0) as [[] s1|f]; [|discriminate Hcs].
  unfold unit_run in Hcs. injection Hcs as <-. exact Hreleased.
Qed.

Lemma engine_shutdown_releases_everything_witness :
  @released sample_externals sample_session_statics.
Proof.
  apply (@engine_shutdown_releases_everything sample_externals sample_header
           sample_analytics
           (removelast sample_session) (sample_env (Some 6%nat) true)
           sample_session_statics).
  vm_compute. reflexivity.
Defined.

(** ** ReportEvent *)

(** X16: when [IsAvailable()] tests the provider pointer, [ReportEvent]
    returns after any sequence of calls from program start: it records the
    event on the provider if one is set, then hands it to
    [FStudioAnalytics::ReportEvent] in every case, and changes nothing
    else. *)
Theorem ReportEvent_forwards {E : Externals} {Hd : Header} {An : AnalyticsET}
  (cs : list Call) (s : Statics)
  (EventName : string) (Attributes : list FAnalyticsEventAttribute) :
  IsAvailable_tests_Analytics ->
  calls cs startup = Returned tt s ->
  ReportEvent EventName Attributes s
  = Returned tt
      (record_event (StudioAnalytics_ReportEvent EventName Attributes)
         match Analytics s with
         | Some p => record_event (Provider_RecordEvent p EventName Attributes) s
         | None => s
         end).
Proof.
  intros Havailable Hcs.
  destruct (reachable_invariant cs s Hcs) as [(Hinit & _) _].
  unfold ReportEvent, bind_run, get, when. rewrite (Havailable s).
  destruct (Analytics s) as [p|] eqn:Hp; simpl; [|reflexivity].
  unfold GetProvider, bind_run, get, checkf.
  rewrite (Havailable s), Hinit, Hp.
  cbn [IsValid andb]. unfold unit_run at 1. rewrite Hp. reflexivity.
Qed.

Lemma ReportEvent_forwards_witness :
  @ReportEvent sample_externals sample_header "Editor.Closed" sample_attributes
    sample_session_statics
  = Returned tt
      (record_event (StudioAnalytics_ReportEvent "Editor.Closed" sample_attributes)
         sample_session_statics).
Proof.
  apply (@ReportEvent_forwards sample_externals sample_header sample_analytics
           sample_session sample_session_statics "Editor.Closed" sample_attributes).
  - intros s. reflexivity.
  - vm_compute. reflexivity.
Defined.

(** ** Initialize, when it starts a session and when it does nothing *)

(** X17: when [IsAvailable()] tests the provider pointer, no provider is set,
    analytics are wanted and the analytics module returns a provider,
    [Initialize] returns with [bIsInitialized] true and that provider in
    [Analytics], having set the user id to login id, account id and operating
    system id joined by [|] and started the session with the start-up
    attributes; a session manager and a summary writer exist afterwards, and
    so does a summary sender on that provider when the crash reporter runs in
    this process. *)
Theorem Initialize_starts_session {E : Externals} {Hd : Header} {An : AnalyticsET}
  (cs : list Call) (s : Statics) (e : Env) (Engine : UEngine)
  (p : IAnalyticsProviderET) :
  IsAvailable_tests_Analytics ->
  calls cs startup = Returned tt s ->
  Analytics s = None ->
  GEngine e = Some Engine ->
  bShouldInitAnalytics e Engine = true ->
  CreateAnalyticsProvider e (EpicAnalyticsConfig e (EngineAnalyticsConfigFunc s tt))
    = Some p ->
  exists (s1 : Statics) (rest : list Event),
    Initialize e s = Returned tt s1
    /\ bIsInitialized s1 = true
    /\ Analytics s1 = Some p
    /\ IsValid (SessionManager s1) = true
    /\ IsValid (SessionSummaryWriter s1) = true
    /\ (IsOutOfProcessCrashReporter e = false ->
        exists sender, SessionSummarySender s1 = Some sender
                       /\ AnalyticsProvider sender = p)
    /\ Events s1
       = Events s
         ++ Provider_SetUserID p
              (GetLoginId e +:+ "|" +:+ GetEpicAccountId e +:+ "|"
                 +:+ GetOperatingSystemId e)
         :: Provider_StartSession p (StartSessionAttributes e Engine)
         :: rest.
Proof.
  intros Havailable Hcs Hnone Hengine Hshould Hprovider.
  pose proof (bShouldInitAnalytics_editor e Engine Hshould) as Heditor.
  destruct (reachable_invariant cs s Hcs) as [(Hinit & Hrefers & _) _].
  destruct s as [init provider manager writer sender config events].
  simpl in *. subst provider. simpl in Hinit. subst init.
  assert (sender = None) as ->.
  { destruct sender as [sd|]; [|reflexivity]. discriminate (Hrefers sd eq_refl). }
  clear Hcs Hrefers.
  run_unfold. rewrite Hengine, Hshould, Hprovider, Heditor.
  destruct manager, writer, (IsOutOfProcessCrashReporter e);
    rewrite ?Havailable; cbn;
    eexists; eexists; (split; [reflexivity|]);
    repeat split; intros; try discriminate; eauto;
    cbn; rewrite <- ?app_assoc; cbn; reflexivity.
Qed.

Lemma Initialize_starts_session_witness :
  exists s1 : @Statics sample_externals,
    @Initialize sample_externals sample_header (sample_env (Some 6%nat) true)
      sample_session_statics = Returned tt s1
    /\ @bIsInitialized sample_externals s1 = true
    /\ @Analytics sample_externals s1 = Some 6%nat.
Proof.
  destruct (@Initialize_starts_session sample_externals sample_header sample_analytics
              sample_session sample_session_statics (sample_env (Some 6%nat) true)
              sample_engine 6%nat)
    as (s1 & rest & Hrun & Hflag & Hprovider & _).
  - intros s. reflexivity.
  - vm_compute. reflexivity.
  - reflexivity.
  - reflexivity.
  - reflexivity.
  - reflexivity.
  - exists s1. split; [exact Hrun|]. split; [exact Hflag|exact Hprovider].
Defined.

(** ** Builds in which analytics are never started *)

Lemma bShouldInitAnalytics_off `{Externals} (e : Env) (Engine : UEngine) :
  WITH_EDITOR = false \/ UE_BUILD_DEBUG = true ->
  bShouldInitAnalytics e Engine = false.
Proof.
  unfold bShouldInitAnalytics. intros [-> | ->]; [|reflexivity].
  destruct UE_BUILD_DEBUG; reflexivity.
Qed.

Ltac close_inert Hoff :=
  try match goal with
      | Hs : bShouldInitAnalytics _ _ = true |- _ =>
          rewrite Hoff in Hs; discriminate Hs
      end;
  cbv [safely inert released IsValid
       bIsInitialized Analytics SessionManager SessionSummaryWriter
       SessionSummarySender EngineAnalyticsConfigFunc Events] in *;
  repeat match goal with
         | H : _ /\ _ |- _ => destruct H
         end;
  simplify_eq;
  rewrite ?forallb_app; simpl;
  repeat split; try (apply andb_true_iff; split); auto; try discriminate.

Lemma call_keeps_inert `{Header} (c : Call) (s : Statics) :
  WITH_EDITOR = false \/ UE_BUILD_DEBUG = true ->
  inert s -> safely inert (call c s).
Proof.
  intros Hbuild Hinert.
  assert (forall e Engine, bShouldInitAnalytics e Engine = false) as Hoff
    by (intros; apply bShouldInitAnalytics_off, Hbuild).
  clear Hbuild.
  destruct s as [init provider manager writer sender config events].
  destruct c; run_unfold; repeat split_test; close_inert Hoff.
Qed.

Lemma calls_keep_inert `{Header} (cs : list Call) (s : Statics) :
  WITH_EDITOR = false \/ UE_BUILD_DEBUG = true ->
  inert s -> safely inert (calls cs s).
Proof.
  intros Hbuild. revert s. induction cs as [|c cs IH]; intros s Hinert; [exact Hinert|].
  pose proof (call_keeps_inert c s Hbuild Hinert) as Hc.
  simpl. unfold bind_run. destruct (call c s) as [[] s'|f]; [|exact Hc].
  apply IH, Hc.
Qed.

(** X18: in a build without editor support, and in a debug build, engine
    analytics never start: after any sequence of calls from program start
    the flag is false, the provider, the session manager, the summary writer
    and the summary sender are null, the only calls made to other modules are
    reports to the studio analytics, and [GetProvider] fails its check. *)
Theorem analytics_never_start {E : Externals} {Hd : Header} {An : AnalyticsET}
  (cs : list Call) (s : Statics) :
  WITH_EDITOR = false \/ UE_BUILD_DEBUG = true ->
  calls cs startup = Returned tt s ->
  released s
  /\ forallb is_studio_report (Events s) = true
  /\ GetProvider s
     = Aborted (CheckFailed
                  "FEngineAnalytics::GetProvider called outside of Initialize/Shutdown.").
Proof.
  intros Hbuild Hcs.
  assert (inert startup) as Hstart by (repeat split).
  pose proof (calls_keep_inert cs startup Hbuild Hstart) as Hs.
  rewrite Hcs in Hs. destruct Hs as [Hreleased Hevents].
  split; [exact Hreleased|]. split; [exact Hevents|].
  destruct Hreleased as (Hinit & _).
  unfold GetProvider, bind_run, get. rewrite Hinit. reflexivity.
Qed.

Lemma analytics_never_start_witness :
  @released sample_game_externals sample_game_statics
  /\ forallb is_studio_report (@Events sample_game_externals sample_game_statics) = true
  /\ @GetProvider sample_game_externals sample_game_header sample_game_statics
     = Aborted (CheckFailed
                  "FEngineAnalytics::GetProvider called outside of Initialize/Shutdown.").
Proof.
  apply (@analytics_never_start sample_game_externals sample_game_header
           sample_game_analytics sample_game_session sample_game_statics).
  - left. reflexivity.
  - vm_compute. reflexivity.
Defined.

(** ** The account of the default key *)

Lemma append_assoc (a b c : string) : (a +:+ b) +:+ c = a +:+ (b +:+ c).
Proof.
  induction a as [|x a IH]; [reflexivity|].
  change (String x ((a +:+ b) +:+ c) = String x (a +:+ b +:+ c)).
  rewrite IH. reflexivity.
Qed.

Lemma IsEmpty_append (p s : string) : IsEmpty s = false -> IsEmpty (p +:+ s) = false.
Proof. intros Hs. destruct p; [exact Hs|reflexivity]. Qed.

Lemma last_char_app (p s : string) :
  IsEmpty s = false -> last_char (p +:+ s) = last_char s.
Proof.
  intros Hs. induction p as [|c p IH]; [reflexivity|].
  pose proof (IsEmpty_append p s Hs) as Hps.
  change (String c p +:+ s) with (String c (p +:+ s)).
  destruct (p +:+ s) as [|d r] eqn:Happ; [discriminate Hps|].
  exact IH.
Qed.

(** X19: the key that [CreateEpicAnalyticsProvider] builds when none is
    configured names the "Release" account exactly when the analytics build
    type is Development or Release and the build is not an internal one; in
    every other case it names the "Dev" account. *)
Theorem release_account_iff `{Externals} (e : Env) :
  (ends_with ".Release" (DefaultAPIKeyET e) <->
     (GetAnalyticsBuildType e = Development \/ GetAnalyticsBuildType e = Release)
     /\ IsInternalBuild e = false)
  /\ (ends_with ".Release" (DefaultAPIKeyET e) \/ ends_with ".Dev" (DefaultAPIKeyET e)).
Proof.
  unfold DefaultAPIKeyET.
  set (ty := match UE4TypeOverride e with
             | Some override => override
             | None => if IsPerforceBuild e then "Perforce" else "UnrealEngine"
             end).
  set (use := (bool_decide (GetAnalyticsBuildType e = Development)
               || bool_decide (GetAnalyticsBuildType e = Release))
              && negb (IsInternalBuild e)).
  assert (use = true <->
          (GetAnalyticsBuildType e = Development \/ GetAnalyticsBuildType e = Release)
          /\ IsInternalBuild e = false) as Huse.
  { unfold use. rewrite andb_true_iff, orb_true_iff, !bool_decide_eq_true, negb_true_iff.
    reflexivity. }
  assert (forall b : string,
            ("UEEditor." +:+ ty +:+ "." +:+ b) = ("UEEditor." +:+ ty) +:+ ("." +:+ b))
    as Hassoc by (intros b; symmetry; apply append_assoc).
  split.
  - rewrite <- Huse. destruct use; split; intros Hx; try reflexivity.
    + exists ("UEEditor." +:+ ty). apply Hassoc.
    + destruct Hx as [prefix Hprefix].
      apply (f_equal last_char) in Hprefix.
      rewrite Hassoc, !last_char_app in Hprefix by reflexivity.
      discriminate Hprefix.
    + discriminate Hx.
  - destruct use; [left|right]; exists ("UEEditor." +:+ ty); apply Hassoc.
Qed.

(** ** The configuration function *)

Lemma call_keeps_config_func `{Header} (c : Call) (s : Statics) :
  match call c s with
  | Returned _ s1 =>
      EngineAnalyticsConfigFunc s1 = last_bound [c] (EngineAnalyticsConfigFunc s)
  | Aborted _ => True
  end.
Proof.
  destruct s as [init provider manager writer sender config events].
  destruct c; simpl last_bound; run_unfold; repeat split_test;
    first [reflexivity | exact I].
Qed.

(** X20: no function of the file resets the configuration function: after
    any sequence of calls, the function in force is the last one that was
    bound through [GetEngineAnalyticsConfigFunc], or the one in force before
    the sequence when none was bound; [Initialize] and [Shutdown] leave it
    alone. *)
Theorem config_func_persists `{Header} (cs : list Call) (s s1 : Statics) :
  calls cs s = Returned tt s1 ->
  EngineAnalyticsConfigFunc s1 = last_bound cs (EngineAnalyticsConfigFunc s).
Proof.
  revert s. induction cs as [|c cs IH]; intros s Hcs.
  - injection Hcs as <-. reflexivity.
  - simpl in Hcs. unfold bind_run in Hcs.
    pose proof (call_keeps_config_func c s) as Hc.
    destruct (call c s) as [[] s'|f]; [|discriminate Hcs].
    rewrite (IH s' Hcs), Hc. destruct c; reflexivity.
Qed.

Lemma config_func_persists_witness :
  @EngineAnalyticsConfigFunc sample_externals sample_bound_statics = sample_config_func.
Proof.
  apply (@config_func_persists sample_externals sample_header
           sample_bound_session sample_startup sample_bound_statics).
  vm_compute. reflexivity.
Defined.
